(** * Stream File Transfer: the [transferFile] operation

    A shallow embedding of [execute] from
    [src/nodes/StreamFileTransfer/actions/transferFile.operation.ts]
    (the n8n node that relays a file from a download URL to an upload URL),
    together with the JavaScript primitives the function relies on, and the
    properties of the operation that the specification states.

    Modelling conventions.
    - A JavaScript string is a [string]: a sequence of code units below 256.
    - A JavaScript number is a binary64 value, a [spec_float]; [parseInt]
      rounds the integer it reads to the nearest such value.  A status code
      is an integer.
    - [String(n)] of a number is a parameter of the model: the numeral that
      JavaScript prints is not computed here.
    - A header object ([Record<string, string>]) is a [gmap string string];
      object spread is a union in which the later operand wins.
    - The host transport [this.helpers.request], the helpers of
      [GenericFunctions.ts] and [JSON.parse] are parameters of the model.
    - [execute] runs in a monad that threads the list of requests issued so
      far and either returns a value or throws an error message. *)

From Stdlib Require Import ZArith Ascii String DecimalString SpecFloat Lia.
From stdpp Require Import base option gmap strings list.

Local Open Scope Z_scope.

(** ** JavaScript primitives *)

Module Js.

(** Numbers are the binary64 values: zeros, infinities, NaN and the finite
    values [m * 2^e]. *)
Definition NaN : spec_float := S754_nan.

Definition isNaN (n : spec_float) : bool :=
  match n with S754_nan => true | _ => false end.

(** [n > 0]; every comparison with [NaN] is false. *)
Definition gt0 (n : spec_float) : bool := SFltb (S754_zero false) n.

(** The Number value for an integer: the nearest binary64 value, ties to
    even, an infinity beyond the range; [negative] is the sign of a zero. *)
Definition toNumber (negative : bool) (z : Z) : spec_float :=
  binary_normalize 53 1024 z 0 negative.

(** [`${code}`] on the integer of a status code. *)
Definition string_of_Z (z : Z) : string :=
  NilZero.string_of_int (Z.to_int z).

(** WhiteSpace and LineTerminator code units below 256:
    TAB, LF, VT, FF, CR, SP and NBSP. *)
Definition isWhiteSpace (c : ascii) : bool :=
  let n := N_of_ascii c in
  ((9 <=? n) && (n <=? 13) || (n =? 32) || (n =? 160))%N.

Fixpoint trimStart (s : string) : string :=
  match s with
  | EmptyString => EmptyString
  | String c s' => if isWhiteSpace c then trimStart s' else s
  end.

Definition isEmpty (s : string) : bool :=
  match s with EmptyString => true | String _ _ => false end.

Fixpoint trimEnd (s : string) : string :=
  match s with
  | EmptyString => EmptyString
  | String c s' =>
      let r := trimEnd s' in
      if isWhiteSpace c && isEmpty r then EmptyString else String c r
  end.

(** [s.trim()] *)
Definition trim (s : string) : string := trimEnd (trimStart s).

(** [s.includes(pat)] *)
Fixpoint includes (pat s : string) : bool :=
  String.prefix pat s ||
  match s with
  | EmptyString => false
  | String _ s' => includes pat s'
  end.

(** [s.substring(0, n)] *)
Definition substring0 (n : nat) (s : string) : string := String.substring 0 n s.

Definition digit_of (c : ascii) : option Z :=
  let n := N_of_ascii c in
  if ((48 <=? n) && (n <=? 57))%N then Some (Z.of_N n - 48) else None.

(** The longest prefix of decimal digits, read most significant first;
    [None] when the string does not start with a digit. *)
Fixpoint digits (acc : option Z) (s : string) : option Z :=
  match s with
  | EmptyString => acc
  | String c s' =>
      match digit_of c with
      | Some d => digits (Some (10 * default 0 acc + d)) s'
      | None => acc
      end
  end.

(** [parseInt(s, 10)]: leading white space is skipped, one sign is
    accepted, then the longest run of digits is read and the Number value
    for that integer is returned; [NaN] when there is no digit. *)
Definition parseInt10 (s : string) : spec_float :=
  match trimStart s with
  | String "-" r => match digits None r with Some z => toNumber true (- z) | None => NaN end
  | String "+" r => match digits None r with Some z => toNumber false z | None => NaN end
  | r => match digits None r with Some z => toNumber false z | None => NaN end
  end.

(** Values that a response body can hold. *)
Inductive JsValue : Type :=
| JsUndefined
| JsNull
| JsBoolean (b : bool)
| JsNumber (n : spec_float) (text : string)  (* a number and the text [String] gives for it *)
| JsString (s : string)
| JsBuffer (data : list Byte.byte)          (* a Node.js Buffer *)
| JsReadable (id : N)                       (* an object whose [pipe] is a function *)
| JsObject (ctor : string) (json : string). (* any other object: the name of its
                                               constructor and its JSON.stringify text *)

(** [Buffer.isBuffer(v)] *)
Definition isBuffer (v : JsValue) : bool :=
  match v with JsBuffer _ => true | _ => false end.

(** ToBoolean *)
Definition truthy_string (s : string) : bool := negb (isEmpty s).

Definition truthy_number (n : spec_float) : bool :=
  match n with S754_zero _ | S754_nan => false | _ => true end.

Definition truthy (v : JsValue) : bool :=
  match v with
  | JsUndefined | JsNull => false
  | JsBoolean b => b
  | JsNumber n _ => truthy_number n
  | JsString s => truthy_string s
  | JsBuffer _ | JsReadable _ | JsObject _ _ => true
  end.

(** [typeof v.pipe === 'function'], for a truthy [v] *)
Definition hasPipe (v : JsValue) : bool :=
  match v with JsReadable _ => true | _ => false end.

Definition typeof (v : JsValue) : string :=
  match v with
  | JsUndefined => "undefined"
  | JsBoolean _ => "boolean"
  | JsNumber _ _ => "number"
  | JsString _ => "string"
  | JsNull | JsBuffer _ | JsReadable _ | JsObject _ _ => "object"
  end.

(** [v?.constructor?.name]; [None] is [undefined].  (A Buffer and a
    readable stream never get here: [execute] rejects the first and accepts
    the second before it asks.) *)
Definition constructorName (v : JsValue) : option string :=
  match v with
  | JsUndefined | JsNull => None
  | JsBoolean _ => Some "Boolean"
  | JsNumber _ _ => Some "Number"
  | JsString _ => Some "String"
  | JsBuffer _ => Some "Buffer"
  | JsReadable _ => Some "Readable"
  | JsObject ctor _ => Some ctor
  end.

(** [String(v)]; [execute] asks for it on the values that are not truthy
    objects. *)
Definition String_value (v : JsValue) : string :=
  match v with
  | JsUndefined => "undefined"
  | JsNull => "null"
  | JsBoolean b => if b then "true" else "false"
  | JsNumber _ text => text
  | JsString s => s
  | JsBuffer _ | JsReadable _ | JsObject _ _ => "[object Object]"
  end.

(** [JSON.stringify(v)]; [execute] asks for it on a truthy object that is
    neither a Buffer nor a readable stream, whose text the value carries. *)
Definition JSON_stringify (v : JsValue) : string :=
  match v with
  | JsObject _ json => json
  | _ => "{}"
  end.

End Js.

Import Js.

(** ** Data of the operation *)

(** A header object, [Record<string, string>]. *)
Abbreviation Headers := (gmap string string).

(** [h[k]] is falsy: the key is absent or bound to the empty string. *)
Definition falsyAt (h : Headers) (k : string) : bool :=
  match h !! k with
  | Some v => isEmpty v
  | None => true
  end.

(** The [contentLength] parameter, [string | number]. *)
Inductive ContentLength : Type :=
| CLString (s : string)
| CLNumber (n : spec_float).

Definition truthy_length (c : ContentLength) : bool :=
  match c with
  | CLString s => truthy_string s
  | CLNumber n => truthy_number n
  end.

(** [typeof c === 'number' ? c : parseInt(c, 10)] *)
Definition toLength (c : ContentLength) : spec_float :=
  match c with
  | CLNumber n => n
  | CLString s => parseInt10 s
  end.

(** The [downloadHeaders] and [uploadHeaders] parameters, [string | IDataObject]. *)
Inductive HeadersParam : Type :=
| HeadersText (s : string)
| HeadersObject (o : Headers).

(** The node parameters read by [getNodeParameter]. *)
Record Params : Type := {
  downloadUrl : string;
  uploadUrl : string;
  contentLength : ContentLength;
  method : string;
  downloadHeadersParam : HeadersParam;
  uploadHeadersParam : HeadersParam;
  throwOnError : bool
}.

(** [IRequestOptions], with the fields that [execute] sets. *)
Record IRequestOptions : Type := {
  req_method : string;
  req_url : string;
  req_headers : Headers;
  req_encoding_null : bool;
  req_body : option JsValue;
  req_resolveWithFullResponse : bool
}.

(** What [helpers.request] resolves to with [resolveWithFullResponse]. *)
Record Response : Type := {
  statusCode : option Z;
  headers : option Headers;
  body : JsValue
}.

(** The [json] object of the item that [execute] returns; an absent key or
    a key bound to [undefined] is [None]. *)
Record Json : Type := {
  success : option bool;
  error : option string;
  downloadStatus : option Z;
  uploadStatus : option Z;
  uploadResponse : option JsValue;
  json_downloadUrl : option string;
  json_uploadUrl : option string
}.

Record INodeExecutionData : Type := {
  json : Json;
  pairedItem : Z
}.

(** ** The execution monad: requests issued so far, and exceptions *)

Inductive result (A : Type) : Type :=
| Ok (a : A)
| Throw (message : string).

Arguments Ok {A} a.
Arguments Throw {A} message.

Definition Exec (A : Type) : Type :=
  list IRequestOptions -> result A * list IRequestOptions.

Definition ret {A} (a : A) : Exec A := fun log => (Ok a, log).

Definition throw {A} (message : string) : Exec A := fun log => (Throw message, log).

Definition bind {A B} (m : Exec A) (k : A -> Exec B) : Exec B :=
  fun log =>
    match m log with
    | (Ok a, log') => k a log'
    | (Throw e, log') => (Throw e, log')
    end.

(** [try { m } catch (error) { handler(error.message) }] *)
Definition tryCatch {A} (m : Exec A) (handler : string -> Exec A) : Exec A :=
  fun log =>
    match m log with
    | (Ok a, log') => (Ok a, log')
    | (Throw e, log') => handler e log'
    end.

(** A pure computation that may throw. *)
Definition lift {A} (r : result A) : Exec A := fun log => (r, log).

Notation "'let*' x ':=' m 'in' k" := (bind m (fun x => k))
  (at level 10, x name, m at level 100, k at level 200).

(** ** Messages *)

(** [`${statusCode}`] for a defined status code. *)
Definition downloadFailedMessage (code : Z) (dUrl : string) : string :=
  "Download failed with HTTP " +:+ string_of_Z code +:+ " from " +:+ dUrl +:+
  ". Please verify the download URL is accessible and returns a successful response.".

Definition uploadFailedMessage (code : Z) (uUrl meth : string) : string :=
  "Upload failed with HTTP " +:+ string_of_Z code +:+ " to " +:+ uUrl +:+ ". " +:+
  "Please verify the upload URL is correct, authentication is valid, and the endpoint accepts " +:+
  meth +:+ " requests.".

Definition bufferedMessage (dUrl : string) (data : list Byte.byte) : string :=
  "Download response from " +:+ dUrl +:+ " was buffered instead of streamed. " +:+
  "The response body is a Buffer (" +:+ string_of_Z (Z.of_nat (length data)) +:+
  " bytes), which means the entire file was loaded into memory. " +:+
  "This defeats the purpose of streaming. Please ensure the download URL returns a stream. " +:+
  "Check that 'Accept: */*' header is set and encoding is null.".

Definition bodyPreview (v : JsValue) : string :=
  if truthy v && String.eqb (typeof v) "object"
  then substring0 200 (JSON_stringify v)
  else substring0 200 (String_value v).

Definition bodyConstructor (v : JsValue) : string :=
  match constructorName v with
  | Some n => if truthy_string n then n else "unknown"
  | None => "unknown"
  end.

Definition notStreamableMessage (dUrl : string) (v : JsValue) : string :=
  "Download response from " +:+ dUrl +:+ " is not a streamable format. " +:+
  "The response body type is: " +:+ typeof v +:+ ", constructor: " +:+ bodyConstructor v +:+ ". " +:+
  (if truthy_string (bodyPreview v)
   then "Response preview: " +:+ bodyPreview v +:+
        (if (200 <=? String.length (bodyPreview v))%nat then "..." else "") +:+ ". "
   else "") +:+
  "This usually means the server returned JSON/text instead of binary data, or the response was parsed/buffered. " +:+
  "Please ensure the download URL returns a binary stream. " +:+
  "You may need to add headers like 'Accept: */*' to prevent automatic parsing.".

(** The message built in the [catch] block. *)
Definition enhancedMessage (dUrl uUrl errorMessage : string) : string :=
  if includes "Download URL" errorMessage || includes "Upload URL" errorMessage
  then errorMessage
  else "File transfer failed: " +:+ errorMessage +:+ ". Download URL: " +:+ dUrl +:+
       ", Upload URL: " +:+ uUrl.

(** ** The operation *)

Section Operation.

(** [String(n)] on a number. *)
Variable String_number : spec_float -> string.

(** [parseHeaders] and [extractBearerToken] of [GenericFunctions.ts];
    a header specification that does not parse throws. *)
Variable parseHeaders : HeadersParam -> result Headers.
Variable extractBearerToken : string -> option string.

(** [JSON.parse]; [None] when it throws. *)
Variable JSON_parse : string -> option JsValue.

(** The transport behind [this.helpers.request]: it resolves to a
    response or rejects with an error message. *)
Variable request : IRequestOptions -> result Response.

Definition helpers_request (options : IRequestOptions) : Exec Response :=
  fun log => (request options, log ++ [options]).

(** [{ Accept: '*/*', ...downloadHeaders }] *)
Definition finalDownloadHeaders (downloadHeaders : Headers) : Headers :=
  downloadHeaders ∪ {[ "Accept" := "*/*" ]}.

(** [{ 'Content-Type': 'application/octet-stream', ...uploadHeaders }] *)
Definition defaultUploadHeaders (uploadHeaders : Headers) : Headers :=
  uploadHeaders ∪ {[ "Content-Type" := "application/octet-stream" ]}.

(** [if (token && !h['Authorization'] && !h['authorization'])
       h['Authorization'] = `Bearer ${token}`] *)
Definition addBearer (token : option string) (h : Headers) : Headers :=
  match token with
  | Some t =>
      if truthy_string t && falsyAt h "Authorization" && falsyAt h "authorization"
      then <[ "Authorization" := "Bearer " +:+ t ]> h
      else h
  | None => h
  end.

(** [if (!isNaN(length) && length > 0) h['Content-Length'] = String(length)] *)
Definition setLength (c : ContentLength) (h : Headers) : Headers :=
  let length := toLength c in
  if negb (isNaN length) && gt0 length
  then <[ "Content-Length" := String_number length ]> h
  else h.

(** The upload headers as they stand when the [try] block is entered. *)
Definition preparedUploadHeaders (p : Params) (uploadHeaders : Headers) : Headers :=
  let h := addBearer (extractBearerToken (uploadUrl p)) (defaultUploadHeaders uploadHeaders) in
  if truthy_length (contentLength p) then setLength (contentLength p) h else h.

(** [contentLength || responseHeaders['content-length']];
    [None] is [undefined]. *)
Definition actualContentLength (c : ContentLength) (responseHeaders : Headers)
  : option ContentLength :=
  if truthy_length c then Some c else CLString <$> (responseHeaders !! "content-length").

(** The upload headers after the content length of the download response
    has been looked at. *)
Definition detectedUploadHeaders (p : Params) (downloadResponse : Response) (h : Headers)
  : Headers :=
  let responseHeaders := default ∅ (headers downloadResponse) in
  match actualContentLength (contentLength p) responseHeaders with
  | Some a => if truthy_length a && falsyAt h "Content-Length" then setLength a h else h
  | None => h
  end.

(** [code !== undefined && (code < 200 || code >= 300)], with the code. *)
Definition failedStatus (code : option Z) : option Z :=
  match code with
  | Some c => if (c <? 200) || (300 <=? c) then Some c else None
  | None => None
  end.

(** [code || 200] *)
Definition statusOr200 (code : option Z) : Z :=
  match code with
  | Some c => if c =? 0 then 200 else c
  | None => 200
  end.

(** The body of the upload response as it is stored in the result:
    nothing when it is [undefined], the parsed value when it is a string
    that [JSON.parse] accepts, the body itself otherwise. *)
Definition decodedBody (b : JsValue) : option JsValue :=
  match b with
  | JsUndefined => None
  | JsString s =>
      match JSON_parse s with
      | Some v => Some v
      | None => Some (JsString s)
      end
  | v => Some v
  end.

Definition emptyJson : Json :=
  {| success := None; error := None; downloadStatus := None; uploadStatus := None;
     uploadResponse := None; json_downloadUrl := None; json_uploadUrl := None |}.

Definition item (itemIndex : Z) (j : Json) : INodeExecutionData :=
  {| json := j; pairedItem := itemIndex |}.

(** [downloadOptions]: GET, binary response, full response. *)
Definition downloadOptions (p : Params) (downloadHeaders : Headers) : IRequestOptions :=
  {| req_method := "GET"; req_url := downloadUrl p;
     req_headers := finalDownloadHeaders downloadHeaders;
     req_encoding_null := true; req_body := None;
     req_resolveWithFullResponse := true |}.

(** [uploadOptions]: the download stream is the body. *)
Definition uploadOptions (p : Params) (finalUploadHeaders : Headers) (downloadStream : JsValue)
  : IRequestOptions :=
  {| req_method := method p; req_url := uploadUrl p;
     req_headers := finalUploadHeaders;
     req_encoding_null := false; req_body := Some downloadStream;
     req_resolveWithFullResponse := true |}.

(** The [try] block. *)
Definition transfer (p : Params) (itemIndex : Z) (downloadHeaders uploadHeaders : Headers)
  : Exec INodeExecutionData :=
  let* downloadResponse := helpers_request (downloadOptions p downloadHeaders) in
  let downloadStatusCode := statusCode downloadResponse in
  match failedStatus downloadStatusCode with
  | Some code =>
      let errorMessage := downloadFailedMessage code (downloadUrl p) in
      if throwOnError p then throw errorMessage
      else ret (item itemIndex
                  {| success := None; error := Some errorMessage;
                     downloadStatus := Some code; uploadStatus := None;
                     uploadResponse := None;
                     json_downloadUrl := Some (downloadUrl p); json_uploadUrl := None |})
  | None =>
      let finalUploadHeaders :=
        detectedUploadHeaders p downloadResponse (preparedUploadHeaders p uploadHeaders) in
      let downloadStream := body downloadResponse in
      match downloadStream with
      | JsBuffer data => throw (bufferedMessage (downloadUrl p) data)
      | _ =>
          if negb (truthy downloadStream) || negb (hasPipe downloadStream)
          then throw (notStreamableMessage (downloadUrl p) downloadStream)
          else
            let* uploadResponse :=
              helpers_request (uploadOptions p finalUploadHeaders downloadStream) in
            let uploadStatusCode := statusCode uploadResponse in
            match failedStatus uploadStatusCode with
            | Some code =>
                let errorMessage := uploadFailedMessage code (uploadUrl p) (method p) in
                if throwOnError p then throw errorMessage
                else ret (item itemIndex
                            {| success := None; error := Some errorMessage;
                               downloadStatus := downloadStatusCode;
                               uploadStatus := Some code;
                               uploadResponse := None;
                               json_downloadUrl := Some (downloadUrl p);
                               json_uploadUrl := Some (uploadUrl p) |})
            | None =>
                ret (item itemIndex
                       {| success := Some true; error := None;
                          downloadStatus := Some (statusOr200 downloadStatusCode);
                          uploadStatus := Some (statusOr200 uploadStatusCode);
                          uploadResponse := decodedBody (body uploadResponse);
                          json_downloadUrl := None; json_uploadUrl := None |})
            end
      end
  end.

(** The [catch] block. *)
Definition recover (p : Params) (itemIndex : Z) (errorMessage : string)
  : Exec INodeExecutionData :=
  let enhanced := enhancedMessage (downloadUrl p) (uploadUrl p) errorMessage in
  if throwOnError p then throw enhanced
  else ret (item itemIndex
              {| success := Some false; error := Some enhanced;
                 downloadStatus := None; uploadStatus := None; uploadResponse := None;
                 json_downloadUrl := Some (downloadUrl p);
                 json_uploadUrl := Some (uploadUrl p) |}).

(** [!url || url.trim() === ''] *)
Definition blank (url : string) : bool :=
  negb (truthy_string url) || isEmpty (trim url).

Definition execute (p : Params) (itemIndex : Z) : Exec INodeExecutionData :=
  if blank (downloadUrl p) then throw "Download URL is required and cannot be empty"
  else if blank (uploadUrl p) then throw "Upload URL is required and cannot be empty"
  else
    let* downloadHeaders := lift (parseHeaders (downloadHeadersParam p)) in
    let* uploadHeaders := lift (parseHeaders (uploadHeadersParam p)) in
    tryCatch (transfer p itemIndex downloadHeaders uploadHeaders) (recover p itemIndex).

(** One invocation: the outcome and the requests that were issued. *)
Definition run (p : Params) (itemIndex : Z)
  : result INodeExecutionData * list IRequestOptions :=
  execute p itemIndex [].

End Operation.

(** ** Notions of the specification *)

(** Header names compared without regard to letter case. *)
Definition lowerChar (c : ascii) : ascii :=
  let n := N_of_ascii c in
  if ((65 <=? n) && (n <=? 90))%N then ascii_of_N (n + 32) else c.

Fixpoint toLowerCase (s : string) : string :=
  match s with
  | EmptyString => EmptyString
  | String c s' => String (lowerChar c) (toLowerCase s')
  end.

(** [h] has a header called [name], in some letter case. *)
Definition hasHeader (h : Headers) (name : string) : Prop :=
  exists k, is_Some (h !! k) /\ toLowerCase k = toLowerCase name.

(** A merge of [defaults] and [user] in which a user header replaces the
    default whose name it matches without regard to case. *)
Definition mergedIgnoringCase (defaults user effective : Headers) : Prop :=
  forall k v,
    effective !! k = Some v <->
    user !! k = Some v \/ (user !! k = None /\ defaults !! k = Some v /\ ~ hasHeader user k).

(** A merge of [defaults] and [user] in which a user header replaces the
    default of exactly the same name. *)
Definition mergedExactly (defaults user effective : Headers) : Prop :=
  forall k,
    effective !! k = match user !! k with Some v => Some v | None => defaults !! k end.

(** The length that a candidate stands for: its number when that is not
    NaN and greater than zero, or none. *)
Definition positiveLength (c : ContentLength) : option spec_float :=
  let length := toLength c in
  if negb (isNaN length) && gt0 length then Some length else None.

Definition advertisedLength (advertised : option string) : option spec_float :=
  match advertised with
  | Some s => positiveLength (CLString s)
  | None => None
  end.

(** Precedence in which a candidate that is zero or not numeric counts as
    absent at either tier. *)
Definition lengthByTiers (c : ContentLength) (advertised : option string)
  : option spec_float :=
  match positiveLength c with
  | Some z => Some z
  | None => advertisedLength advertised
  end.

(** Precedence as the operation applies it.  An explicit input that is
    truthy decides alone.  Only a falsy explicit input (the empty string, zero,
    NaN) gives way to the advertised length, and then only if the upload
    headers hold no [Content-Length] of their own. *)
Definition chosenLength (c : ContentLength) (uploadHeaders : Headers)
    (advertised : option string) : option spec_float :=
  if truthy_length c then positiveLength c
  else if falsyAt uploadHeaders "Content-Length" then advertisedLength advertised
  else None.

(** Every character of the string is white space (the empty string
    included). *)
Fixpoint allWhiteSpace (s : string) : bool :=
  match s with
  | EmptyString => true
  | String c s' => isWhiteSpace c && allWhiteSpace s'
  end.

(** An outcome that is a failure carrying [message]: a raised error, or a
    returned item with the message under [error]. *)
Definition failsWith (out : result INodeExecutionData) (message : string) : Prop :=
  out = Throw message \/ exists r, out = Ok r /\ error (json r) = Some message.

(** The download status passes: it is absent or within [200, 300). *)
Definition passes (code : option Z) : Prop :=
  match code with
  | Some c => 200 <= c < 300
  | None => True
  end.

(** The body can be piped: a truthy value with a [pipe] function that is not a Buffer. *)
Definition streamable (v : JsValue) : Prop := exists id, v = JsReadable id.

Section Notions.

Variable String_number : spec_float -> string.
Variable parseHeaders : HeadersParam -> result Headers.
Variable extractBearerToken : string -> option string.
Variable request : IRequestOptions -> result Response.

(** The invocation gets past the checks of its parameters: both URLs are
    filled in and both header specifications parse. *)
Definition configured (p : Params) (downloadHeaders uploadHeaders : Headers) : Prop :=
  blank (downloadUrl p) = false /\
  blank (uploadUrl p) = false /\
  parseHeaders (downloadHeadersParam p) = Ok downloadHeaders /\
  parseHeaders (uploadHeadersParam p) = Ok uploadHeaders.

(** The download request resolves to [downloadResponse]. *)
Definition downloaded (p : Params) (downloadHeaders : Headers) (downloadResponse : Response)
  : Prop :=
  request (downloadOptions p downloadHeaders) = Ok downloadResponse.

(** The headers of the upload request that follows [downloadResponse]. *)
Definition finalUploadHeaders (p : Params) (uploadHeaders : Headers)
    (downloadResponse : Response) : Headers :=
  detectedUploadHeaders String_number p downloadResponse
    (preparedUploadHeaders String_number extractBearerToken p uploadHeaders).

(** The upload request resolves to [uploadResponse]. *)
Definition uploaded (p : Params) (uploadHeaders : Headers)
    (downloadResponse uploadResponse : Response) : Prop :=
  request (uploadOptions p (finalUploadHeaders p uploadHeaders downloadResponse)
             (body downloadResponse)) = Ok uploadResponse.

(** The terminal failures of the relay, each with the diagnostic string
    that is built where the failure is detected. *)
Inductive TerminalFailure (p : Params) (downloadHeaders uploadHeaders : Headers)
  : string -> Prop :=
| DownloadFailed downloadResponse code :
    downloaded p downloadHeaders downloadResponse ->
    failedStatus (statusCode downloadResponse) = Some code ->
    TerminalFailure p downloadHeaders uploadHeaders
      (downloadFailedMessage code (downloadUrl p))
| StreamBuffered downloadResponse data :
    downloaded p downloadHeaders downloadResponse ->
    failedStatus (statusCode downloadResponse) = None ->
    body downloadResponse = JsBuffer data ->
    TerminalFailure p downloadHeaders uploadHeaders
      (bufferedMessage (downloadUrl p) data)
| StreamNotStreamable downloadResponse :
    downloaded p downloadHeaders downloadResponse ->
    failedStatus (statusCode downloadResponse) = None ->
    isBuffer (body downloadResponse) = false ->
    hasPipe (body downloadResponse) = false ->
    TerminalFailure p downloadHeaders uploadHeaders
      (notStreamableMessage (downloadUrl p) (body downloadResponse))
| UploadFailed downloadResponse uploadResponse code :
    downloaded p downloadHeaders downloadResponse ->
    failedStatus (statusCode downloadResponse) = None ->
    streamable (body downloadResponse) ->
    uploaded p uploadHeaders downloadResponse uploadResponse ->
    failedStatus (statusCode uploadResponse) = Some code ->
    TerminalFailure p downloadHeaders uploadHeaders
      (uploadFailedMessage code (uploadUrl p) (method p))
| DownloadTransportError message :
    request (downloadOptions p downloadHeaders) = Throw message ->
    TerminalFailure p downloadHeaders uploadHeaders message
| UploadTransportError downloadResponse message :
    downloaded p downloadHeaders downloadResponse ->
    failedStatus (statusCode downloadResponse) = None ->
    streamable (body downloadResponse) ->
    request (uploadOptions p (finalUploadHeaders p uploadHeaders downloadResponse)
               (body downloadResponse)) = Throw message ->
    TerminalFailure p downloadHeaders uploadHeaders message.

End Notions.

Section Endings.

Variable String_number : spec_float -> string.
Variable parseHeaders : HeadersParam -> result Headers.
Variable extractBearerToken : string -> option string.
Variable JSON_parse : string -> option JsValue.
Variable request : IRequestOptions -> result Response.

(** The ways in which one invocation ends, each with its outcome and the
    requests issued: before the [try] block; in the [catch] block, after the
    download request or after both requests; with the item of a refused
    download or of a refused upload; with the item of a success. *)
Inductive Ending (p : Params) (itemIndex : Z)
  : result INodeExecutionData * list IRequestOptions -> Prop :=
| EndsUnconfigured message :
    Ending p itemIndex (Throw message, [])
| EndsCaughtAfterDownload dh uh message :
    configured parseHeaders p dh uh ->
    Ending p itemIndex (recover p itemIndex message [downloadOptions p dh])
| EndsCaughtAfterUpload dh uh resp message :
    configured parseHeaders p dh uh ->
    downloaded request p dh resp ->
    passes (statusCode resp) ->
    streamable (body resp) ->
    Ending p itemIndex
      (recover p itemIndex message
         [downloadOptions p dh;
          uploadOptions p (finalUploadHeaders String_number extractBearerToken p uh resp) (body resp)])
| EndsDownloadRefused dh uh resp code :
    configured parseHeaders p dh uh ->
    downloaded request p dh resp ->
    failedStatus (statusCode resp) = Some code ->
    throwOnError p = false ->
    Ending p itemIndex
      (Ok (item itemIndex
             {| success := None;
                error := Some (downloadFailedMessage code (downloadUrl p));
                downloadStatus := Some code; uploadStatus := None;
                uploadResponse := None;
                json_downloadUrl := Some (downloadUrl p);
                json_uploadUrl := None |}),
       [downloadOptions p dh])
| EndsUploadRefused dh uh dresp uresp code :
    configured parseHeaders p dh uh ->
    downloaded request p dh dresp ->
    passes (statusCode dresp) ->
    streamable (body dresp) ->
    uploaded String_number extractBearerToken request p uh dresp uresp ->
    failedStatus (statusCode uresp) = Some code ->
    throwOnError p = false ->
    Ending p itemIndex
      (Ok (item itemIndex
             {| success := None;
                error := Some (uploadFailedMessage code (uploadUrl p) (method p));
                downloadStatus := statusCode dresp;
                uploadStatus := Some code;
                uploadResponse := None;
                json_downloadUrl := Some (downloadUrl p);
                json_uploadUrl := Some (uploadUrl p) |}),
       [downloadOptions p dh;
        uploadOptions p (finalUploadHeaders String_number extractBearerToken p uh dresp) (body dresp)])
| EndsSuccess dh uh dresp uresp :
    configured parseHeaders p dh uh ->
    downloaded request p dh dresp ->
    passes (statusCode dresp) ->
    streamable (body dresp) ->
    uploaded String_number extractBearerToken request p uh dresp uresp ->
    passes (statusCode uresp) ->
    Ending p itemIndex
      (Ok (item itemIndex
             {| success := Some true; error := None;
                downloadStatus := Some (statusOr200 (statusCode dresp));
                uploadStatus := Some (statusOr200 (statusCode uresp));
                uploadResponse := decodedBody JSON_parse (body uresp);
                json_downloadUrl := None; json_uploadUrl := None |}),
       [downloadOptions p dh;
        uploadOptions p (finalUploadHeaders String_number extractBearerToken p uh dresp) (body dresp)]).

End Endings.

(** ** An environment to run the operation in *)

Module Sample.

Fixpoint before (c : ascii) (s : string) : string :=
  match s with
  | EmptyString => EmptyString
  | String a s' => if Ascii.eqb a c then EmptyString else String a (before c s')
  end.

Fixpoint after (c : ascii) (s : string) : option string :=
  match s with
  | EmptyString => None
  | String a s' => if Ascii.eqb a c then Some s' else after c s'
  end.

Fixpoint splitOn (c : ascii) (s : string) : list string :=
  match s with
  | EmptyString => [EmptyString]
  | String a s' =>
      if Ascii.eqb a c then EmptyString :: splitOn c s'
      else match splitOn c s' with
           | x :: xs => String a x :: xs
           | [] => [String a EmptyString]
           end
  end.

(** Modelled from the spec: [extractBearerToken] of [GenericFunctions.ts],
    which the sources at hand only import.  The query string runs from the
    first [?] to the fragment, its parameters are separated by [&], and the
    token is the value of the first parameter whose name is exactly
    [bearer].  Percent-decoding is left out. *)
Definition extractBearerToken (url : string) : option string :=
  match after "?" url with
  | Some query =>
      match List.find (fun kv => String.eqb (before "=" kv) "bearer")
              (splitOn "&" (before "#" query)) with
      | Some kv => Some (default EmptyString (after "=" kv))
      | None => None
      end
  | None => None
  end.

(** Modelled from the spec: [parseHeaders] of [GenericFunctions.ts], on
    the inputs of the examples.  A structured mapping is returned verbatim;
    of the texts only the default [{}] is decoded, any other text is taken
    as one that does not parse. *)
Definition parseHeaders (h : HeadersParam) : result Headers :=
  match h with
  | HeadersObject o => Ok o
  | HeadersText s => if String.eqb s "{}" then Ok ∅ else Throw "Invalid JSON in headers"
  end.

(** [JSON.parse] on the literals [null], [true] and [false]; the examples
    use no other JSON text. *)
Definition JSON_parse (s : string) : option JsValue :=
  if String.eqb s "null" then Some JsNull
  else if String.eqb s "true" then Some (JsBoolean true)
  else if String.eqb s "false" then Some (JsBoolean false)
  else None.

(** [String(n)] on the numbers of the examples, the integers up to [2^53]
    in magnitude, NaN and the infinities: the decimal numeral of the
    integer.  No other number occurs in the examples; the empty text stands
    for them. *)
Definition integerOf (n : spec_float) : option Z :=
  match n with
  | S754_zero _ => Some 0
  | S754_finite negative m e =>
      let magnitude :=
        match e with
        | Zneg k =>
            if (Z.pos m mod 2 ^ Z.pos k =? 0) then Some (Z.pos m / 2 ^ Z.pos k) else None
        | _ => Some (Z.pos m * 2 ^ e)
        end in
      match magnitude with
      | Some z => if z <=? 2 ^ 53 then Some (if negative then - z else z) else None
      | None => None
      end
  | _ => None
  end.

Definition String_number (n : spec_float) : string :=
  match n with
  | S754_nan => "NaN"
  | S754_infinity negative => if negative then "-Infinity" else "Infinity"
  | _ => match integerOf n with
         | Some z => string_of_Z z
         | None => ""
         end
  end.

(** A transport that answers [GET] with [download] and any other method
    with [upload]. *)
Definition transport (download upload : result Response) (o : IRequestOptions)
  : result Response :=
  if String.eqb (req_method o) "GET" then download else upload.

Definition response (code : option Z) (h : Headers) (b : JsValue) : Response :=
  {| statusCode := code; headers := Some h; body := b |}.

Definition params (dUrl uUrl : string) (c : ContentLength) (uploadHeaders : Headers)
    (throws : bool) : Params :=
  {| downloadUrl := dUrl; uploadUrl := uUrl; contentLength := c; method := "POST";
     downloadHeadersParam := HeadersObject ∅;
     uploadHeadersParam := HeadersObject uploadHeaders;
     throwOnError := throws |}.

(** One invocation in this environment. *)
Definition run (download upload : result Response) (p : Params)
  : result INodeExecutionData * list IRequestOptions :=
  run String_number parseHeaders extractBearerToken JSON_parse
    (transport download upload) p 0.

(** Responses: a download that streams, one that was buffered (7 bytes),
    one that is refused, one that advertises its length, one without a
    status code; an upload that is accepted, one that answers plain text,
    one without a status code. *)
Definition streamed : Response := response (Some 200) ∅ (JsReadable 1).

Definition sevenBytes : list Byte.byte :=
  [Byte.x50; Byte.x4b; Byte.x03; Byte.x04; Byte.x14; Byte.x00; Byte.x08].

Definition buffered (code : option Z) : Response := response code ∅ (JsBuffer sevenBytes).

Definition notFound : Response := response (Some 404) ∅ (JsString "Not Found").

Definition advertising (size : string) : Response :=
  response (Some 200) {[ "content-length" := size ]} (JsReadable 1).

Definition statusless (b : JsValue) : Response :=
  {| statusCode := None; headers := None; body := b |}.

Definition accepted : Response := response (Some 201) ∅ (JsString "true").

Definition acceptedText : Response := response (Some 200) ∅ (JsString "upload ok").

(** Parameters: the plain transfer, with and without [throwOnError]. *)
Definition plain (throws : bool) : Params :=
  params "https://a/f" "https://b/u" (CLString "") ∅ throws.

(** The download request of [plain]. *)
Definition plainDownload : IRequestOptions :=
  {| req_method := "GET"; req_url := "https://a/f";
     req_headers := {[ "Accept" := "*/*" ]};
     req_encoding_null := true; req_body := None;
     req_resolveWithFullResponse := true |}.

(** An upload request with the stream of [streamed] as its body. *)
Definition uploadOf (url : string) (h : Headers) : IRequestOptions :=
  {| req_method := "POST"; req_url := url; req_headers := h;
     req_encoding_null := false; req_body := Some (JsReadable 1);
     req_resolveWithFullResponse := true |}.

(** Further responses and parameters: an upload that is refused, a download
    that was parsed into text, a header specification that does not parse. *)
Definition refused : Response := response (Some 500) ∅ (JsString "Internal Server Error").

Definition parsed : Response := response (Some 200) ∅ (JsString "<html>moved</html>").

Definition malformed (throws : bool) : Params :=
  {| downloadUrl := "https://a/f"; uploadUrl := "https://b/u";
     contentLength := CLString ""; method := "POST";
     downloadHeadersParam := HeadersText "{oops";
     uploadHeadersParam := HeadersObject ∅;
     throwOnError := throws |}.

(** The items of the successful transfer and of the download answered
    with 404. *)
Definition successItem : INodeExecutionData :=
  {| json := {| success := Some true; error := None;
                downloadStatus := Some 200; uploadStatus := Some 201;
                uploadResponse := Some (JsBoolean true);
                json_downloadUrl := None; json_uploadUrl := None |};
     pairedItem := 0 |}.

Definition notFoundItem : INodeExecutionData :=
  {| json := {| success := None;
                error := Some (downloadFailedMessage 404 "https://a/f");
                downloadStatus := Some 404; uploadStatus := None;
                uploadResponse := None;
                json_downloadUrl := Some "https://a/f"; json_uploadUrl := None |};
     pairedItem := 0 |}.

End Sample.
Example parseInt10_plain : parseInt10 "1048576" = toNumber false 1048576.
Proof. reflexivity. Qed.

Example parseInt10_suffix : parseInt10 "  42px" = toNumber false 42.
Proof. reflexivity. Qed.

Example parseInt10_negative : parseInt10 "-7" = toNumber true (-7).
Proof. reflexivity. Qed.

Example parseInt10_rounds :
  parseInt10 "9007199254740993" = parseInt10 "9007199254740992".
Proof. reflexivity. Qed.

Example String_number_sample :
  Sample.String_number (parseInt10 "1048576") = "1048576" /\
  Sample.String_number (parseInt10 "abc") = "NaN".
Proof. split; reflexivity. Qed.

Example parseInt10_text : parseInt10 "abc" = NaN.
Proof. reflexivity. Qed.

Example parseInt10_empty : parseInt10 "" = NaN.
Proof. reflexivity. Qed.

Example trim_blank : trim "  	 " = "".
Proof. reflexivity. Qed.

Example trim_inner : trim " a b " = "a b".
Proof. reflexivity. Qed.

Example string_of_Z_404 : string_of_Z 404 = "404".
Proof. reflexivity. Qed.

Example includes_mid : includes "404" "HTTP 404 from" = true.
Proof. reflexivity. Qed.

Example extractBearerToken_present :
  Sample.extractBearerToken "https://x/y?bearer=ABC123" = Some "ABC123".
Proof. reflexivity. Qed.

Example extractBearerToken_absent :
  Sample.extractBearerToken "https://x/y" = None.
Proof. reflexivity. Qed.

Example extractBearerToken_second :
  Sample.extractBearerToken "https://x/y?a=1&bearer=T#frag" = Some "T".
Proof. reflexivity. Qed.

Example sample_run_success :
  Sample.run (Ok (Sample.response (Some 200) ∅ (JsReadable 1)))
             (Ok (Sample.response (Some 201) ∅ (JsString "true")))
             (Sample.params "https://a/f" "https://b/u" (CLString "") ∅ true)
  = (Ok {| json := {| success := Some true; error := None;
                      downloadStatus := Some 200; uploadStatus := Some 201;
                      uploadResponse := Some (JsBoolean true);
                      json_downloadUrl := None; json_uploadUrl := None |};
           pairedItem := 0 |},
     [ {| req_method := "GET"; req_url := "https://a/f";
          req_headers := {[ "Accept" := "*/*" ]};
          req_encoding_null := true; req_body := None;
          req_resolveWithFullResponse := true |};
       {| req_method := "POST"; req_url := "https://b/u";
          req_headers := {[ "Content-Type" := "application/octet-stream" ]};
          req_encoding_null := false; req_body := Some (JsReadable 1);
          req_resolveWithFullResponse := true |} ]).
Proof. vm_compute. reflexivity. Qed.

(** ** Facts about strings *)

Lemma prefix_append (pat rest : string) : String.prefix pat (pat +:+ rest) = true.
Proof.
  induction pat as [|c pat IH]; simpl.
  - destruct rest; reflexivity.
  - destruct (ascii_dec c c) as [_|ne]; [exact IH | contradiction].
Qed.

Lemma prefix_append_l (pat s rest : string) :
  String.prefix pat s = true -> String.prefix pat (s +:+ rest) = true.
Proof.
  revert pat. induction s as [|c s IH]; intros [|a pat]; simpl; try easy.
  - destruct rest; reflexivity.
  - destruct (ascii_dec a c); [apply IH | easy].
Qed.

Lemma includes_unfold (pat s : string) :
  includes pat s =
    String.prefix pat s ||
    match s with EmptyString => false | String _ s' => includes pat s' end.
Proof. destruct s; reflexivity. Qed.

Lemma includes_here (pat rest : string) : includes pat (pat +:+ rest) = true.
Proof. rewrite includes_unfold, prefix_append. reflexivity. Qed.

Lemma prefix_refl (s : string) : String.prefix s s = true.
Proof.
  induction s as [|c s IH]; simpl; [reflexivity|].
  destruct (ascii_dec c c); [exact IH | contradiction].
Qed.

Lemma includes_refl (s : string) : includes s s = true.
Proof. rewrite includes_unfold, prefix_refl. reflexivity. Qed.

Lemma includes_append_r (pat skipped s : string) :
  includes pat s = true -> includes pat (skipped +:+ s) = true.
Proof.
  intros H. induction skipped as [|c skipped IH]; simpl; [exact H|].
  rewrite IH. apply orb_true_r.
Qed.

Lemma includes_append_l (pat s rest : string) :
  includes pat s = true -> includes pat (s +:+ rest) = true.
Proof.
  induction s as [|c s IH]; rewrite (includes_unfold pat (_ +:+ rest)), includes_unfold.
  - rewrite orb_false_r. intros H. rewrite (prefix_append_l _ _ _ H). reflexivity.
  - intros [H|H]%orb_true_iff.
    + rewrite (prefix_append_l _ _ _ H). reflexivity.
    + simpl. rewrite (IH H). apply orb_true_r.
Qed.

Lemma includes_enhancedMessage (dUrl uUrl pat message : string) :
  includes pat message = true ->
  includes pat (enhancedMessage dUrl uUrl message) = true.
Proof.
  intros H. unfold enhancedMessage.
  destruct (includes "Download URL" message || includes "Upload URL" message); [exact H|].
  apply includes_append_r, includes_append_l, H.
Qed.

(** ** The shape of one invocation *)

Section Properties.

Variable String_number : spec_float -> string.
Variable parseHeaders : HeadersParam -> result Headers.
Variable extractBearerToken : string -> option string.
Variable JSON_parse : string -> option JsValue.
Variable request : IRequestOptions -> result Response.

Local Abbreviation invoke :=
  (run String_number parseHeaders extractBearerToken JSON_parse request).
Local Abbreviation attempt :=
  (transfer String_number extractBearerToken JSON_parse request).
Local Abbreviation isConfigured := (configured parseHeaders).
Local Abbreviation downloads := (downloaded request).
Local Abbreviation uploads := (uploaded String_number extractBearerToken request).
Local Abbreviation uploadHeadersAfter :=
  (finalUploadHeaders String_number extractBearerToken).
Local Abbreviation Failure := (TerminalFailure String_number extractBearerToken request).

Lemma invoke_configured p itemIndex dh uh :
  isConfigured p dh uh ->
  invoke p itemIndex = tryCatch (attempt p itemIndex dh uh) (recover p itemIndex) [].
Proof.
  intros (Hd & Hu & Hpd & Hpu).
  unfold invoke, execute. rewrite Hd, Hu.
  unfold bind, lift, tryCatch. rewrite Hpd, Hpu. reflexivity.
Qed.

Lemma failedStatus_passes code : passes code <-> failedStatus code = None.
Proof.
  destruct code as [c|]; simpl; [|easy].
  destruct (c <? 200) eqn:E1, (300 <=? c) eqn:E2; simpl; split; try easy; lia.
Qed.

(** A download that is refused by its status ends the [try] block at once. *)
Lemma transfer_download_failed p itemIndex dh uh resp code :
  downloads p dh resp ->
  failedStatus (statusCode resp) = Some code ->
  attempt p itemIndex dh uh [] =
    ((if throwOnError p then Throw (downloadFailedMessage code (downloadUrl p))
      else Ok (item itemIndex
                 {| success := None;
                    error := Some (downloadFailedMessage code (downloadUrl p));
                    downloadStatus := Some code; uploadStatus := None;
                    uploadResponse := None;
                    json_downloadUrl := Some (downloadUrl p);
                    json_uploadUrl := None |})),
     [downloadOptions p dh]).
Proof.
  intros Hreq Hcode. unfold transfer, bind, helpers_request.
  rewrite Hreq, Hcode. simpl. destruct (throwOnError p); reflexivity.
Qed.

(** A buffered body ends the [try] block with the buffered-response error. *)
Lemma transfer_buffered p itemIndex dh uh resp data :
  downloads p dh resp ->
  failedStatus (statusCode resp) = None ->
  body resp = JsBuffer data ->
  attempt p itemIndex dh uh [] =
    (Throw (bufferedMessage (downloadUrl p) data), [downloadOptions p dh]).
Proof.
  intros Hreq Hcode Hbody. unfold transfer, bind, helpers_request.
  rewrite Hreq, Hcode, Hbody. reflexivity.
Qed.

(** A body without [pipe] ends the [try] block with the not-streamable error. *)
Lemma transfer_not_streamable p itemIndex dh uh resp :
  downloads p dh resp ->
  failedStatus (statusCode resp) = None ->
  isBuffer (body resp) = false ->
  hasPipe (body resp) = false ->
  attempt p itemIndex dh uh [] =
    (Throw (notStreamableMessage (downloadUrl p) (body resp)), [downloadOptions p dh]).
Proof.
  intros Hreq Hcode Hbuf Hpipe. unfold transfer, bind, helpers_request.
  rewrite Hreq, Hcode. simpl.
  destruct (body resp); try discriminate; simpl;
    rewrite ?orb_true_r; reflexivity.
Qed.

(** A streamable body is handed to the upload request. *)
Lemma transfer_streamed p itemIndex dh uh resp :
  downloads p dh resp ->
  failedStatus (statusCode resp) = None ->
  streamable (body resp) ->
  attempt p itemIndex dh uh [] =
    let options := uploadOptions p (uploadHeadersAfter p uh resp) (body resp) in
    let log := [downloadOptions p dh; options] in
    match request options with
    | Ok uploadResponse =>
        match failedStatus (statusCode uploadResponse) with
        | Some code =>
            ((if throwOnError p
              then Throw (uploadFailedMessage code (uploadUrl p) (method p))
              else Ok (item itemIndex
                         {| success := None;
                            error := Some (uploadFailedMessage code (uploadUrl p) (method p));
                            downloadStatus := statusCode resp;
                            uploadStatus := Some code;
                            uploadResponse := None;
                            json_downloadUrl := Some (downloadUrl p);
                            json_uploadUrl := Some (uploadUrl p) |})), log)
        | None =>
            (Ok (item itemIndex
                   {| success := Some true; error := None;
                      downloadStatus := Some (statusOr200 (statusCode resp));
                      uploadStatus := Some (statusOr200 (statusCode uploadResponse));
                      uploadResponse := decodedBody JSON_parse (body uploadResponse);
                      json_downloadUrl := None; json_uploadUrl := None |}), log)
        end
    | Throw message => (Throw message, log)
    end.
Proof.
  intros Hreq Hcode [id Hbody]. unfold transfer, bind, helpers_request.
  rewrite Hreq, Hcode, Hbody. simpl.
  unfold finalUploadHeaders.
  destruct (request _) as [uploadResponse|message]; [|reflexivity].
  destruct (failedStatus (statusCode uploadResponse)); [|reflexivity].
  destruct (throwOnError p); reflexivity.
Qed.

(** What the [catch] block makes of an error message. *)
Lemma recover_spec p itemIndex message log :
  recover p itemIndex message log =
    ((if throwOnError p
      then Throw (enhancedMessage (downloadUrl p) (uploadUrl p) message)
      else Ok (item itemIndex
                 {| success := Some false;
                    error := Some (enhancedMessage (downloadUrl p) (uploadUrl p) message);
                    downloadStatus := None; uploadStatus := None; uploadResponse := None;
                    json_downloadUrl := Some (downloadUrl p);
                    json_uploadUrl := Some (uploadUrl p) |})), log).
Proof. unfold recover. destruct (throwOnError p); reflexivity. Qed.

Lemma invoke_streamed p itemIndex dh uh resp :
  isConfigured p dh uh ->
  downloads p dh resp ->
  passes (statusCode resp) ->
  streamable (body resp) ->
  snd (invoke p itemIndex) =
    [downloadOptions p dh; uploadOptions p (uploadHeadersAfter p uh resp) (body resp)].
Proof.
  intros Hc Hd Hp%failedStatus_passes Hs.
  rewrite (invoke_configured _ _ _ _ Hc). unfold tryCatch.
  rewrite (transfer_streamed _ _ _ _ _ Hd Hp Hs). cbv zeta.
  destruct (request _) as [uresp|message].
  - destruct (failedStatus (statusCode uresp)); [|reflexivity].
    destruct (throwOnError p) eqn:E; [|reflexivity].
    rewrite recover_spec. reflexivity.
  - rewrite recover_spec. reflexivity.
Qed.

Lemma invoke_success p itemIndex dh uh dresp uresp :
  isConfigured p dh uh ->
  downloads p dh dresp ->
  passes (statusCode dresp) ->
  streamable (body dresp) ->
  uploads p uh dresp uresp ->
  passes (statusCode uresp) ->
  invoke p itemIndex =
    (Ok (item itemIndex
           {| success := Some true; error := None;
              downloadStatus := Some (statusOr200 (statusCode dresp));
              uploadStatus := Some (statusOr200 (statusCode uresp));
              uploadResponse := decodedBody JSON_parse (body uresp);
              json_downloadUrl := None; json_uploadUrl := None |}),
     [downloadOptions p dh; uploadOptions p (uploadHeadersAfter p uh dresp) (body dresp)]).
Proof.
  intros Hc Hd Hp%failedStatus_passes Hs Hu Hq%failedStatus_passes.
  rewrite (invoke_configured _ _ _ _ Hc). unfold tryCatch.
  rewrite (transfer_streamed _ _ _ _ _ Hd Hp Hs). cbv zeta.
  unfold uploads, uploaded in Hu. rewrite Hu, Hq. reflexivity.
Qed.

(** ** The properties of the specification *)

(** C9: when [downloadUrl] or [uploadUrl] is empty or holds only white
    space, the invocation raises an error whatever [throwOnError] says:
    the outcome is a thrown message about the missing URL, never an item,
    and no request has been issued. *)
Theorem C9_blank_url_always_raises p itemIndex :
  trim (downloadUrl p) = "" \/ trim (uploadUrl p) = "" ->
  exists message,
    invoke p itemIndex = (Throw message, []) /\
    (message = "Download URL is required and cannot be empty" \/
     message = "Upload URL is required and cannot be empty").
Proof.
  intros H. unfold invoke, execute.
  destruct (blank (downloadUrl p)) eqn:Ed.
  - eexists. split; [reflexivity | left; reflexivity].
  - destruct H as [H|H].
    + unfold blank in Ed. rewrite H in Ed. simpl in Ed.
      rewrite orb_true_r in Ed. discriminate.
    + assert (blank (uploadUrl p) = true) as ->.
      { unfold blank. rewrite H. apply orb_true_r. }
      eexists. split; [reflexivity | right; reflexivity].
Qed.

(** C8: when the download answers 404 and [throwOnError] is off, the
    invocation returns an item (it does not throw) whose [error] contains
    "404" and the download URL and whose [downloadStatus] is 404; the
    download request is the only request issued, so no upload is attempted. *)
Theorem C8_download_404_is_returned p itemIndex dh uh resp :
  isConfigured p dh uh ->
  downloads p dh resp ->
  statusCode resp = Some 404 ->
  throwOnError p = false ->
  exists message,
    invoke p itemIndex =
      (Ok (item itemIndex
             {| success := None; error := Some message;
                downloadStatus := Some 404; uploadStatus := None;
                uploadResponse := None;
                json_downloadUrl := Some (downloadUrl p); json_uploadUrl := None |}),
       [downloadOptions p dh]) /\
    includes "404" message = true /\
    includes (downloadUrl p) message = true.
Proof.
  intros Hc Hd Hcode Hthrow.
  exists (downloadFailedMessage 404 (downloadUrl p)). split; [|split].
  - rewrite (invoke_configured _ _ _ _ Hc). unfold tryCatch.
    rewrite (transfer_download_failed _ _ _ _ _ 404 Hd); [|rewrite Hcode; reflexivity].
    rewrite Hthrow. reflexivity.
  - unfold downloadFailedMessage. apply includes_append_r.
    change (string_of_Z 404) with "404". apply includes_here.
  - unfold downloadFailedMessage. do 3 apply includes_append_r. apply includes_here.
Qed.

(** C10: a response without a status code is not checked against
    [200, 300).  When the download response has none, the upload request is
    issued all the same; and when the transfer succeeds, the item reports
    200 for the phase whose response had no status code. *)
Theorem C10_undefined_status_is_not_checked p itemIndex dh uh dresp :
  isConfigured p dh uh ->
  downloads p dh dresp ->
  streamable (body dresp) ->
  (statusCode dresp = None ->
   snd (invoke p itemIndex) =
     [downloadOptions p dh; uploadOptions p (uploadHeadersAfter p uh dresp) (body dresp)]) /\
  (forall uresp,
     uploads p uh dresp uresp ->
     statusCode dresp = None ->
     passes (statusCode uresp) ->
     exists r,
       fst (invoke p itemIndex) = Ok r /\
       success (json r) = Some true /\
       downloadStatus (json r) = Some 200) /\
  (forall uresp,
     uploads p uh dresp uresp ->
     passes (statusCode dresp) ->
     statusCode uresp = None ->
     exists r,
       fst (invoke p itemIndex) = Ok r /\
       success (json r) = Some true /\
       uploadStatus (json r) = Some 200).
Proof.
  intros Hc Hd Hs. split; [|split].
  - intros Hnone. apply invoke_streamed; [assumption.. | rewrite Hnone; exact I | assumption].
  - intros uresp Hu Hnone Hp.
    assert (passes (statusCode dresp)) as Hp' by (rewrite Hnone; exact I).
    rewrite (invoke_success _ _ _ _ _ _ Hc Hd Hp' Hs Hu Hp).
    eexists. split; [reflexivity|]. rewrite Hnone. split; reflexivity.
  - intros uresp Hu Hp Hnone.
    assert (passes (statusCode uresp)) as Hp' by (rewrite Hnone; exact I).
    rewrite (invoke_success _ _ _ _ _ _ Hc Hd Hp Hs Hu Hp').
    eexists. split; [reflexivity|]. rewrite Hnone. split; reflexivity.
Qed.

(** C7: after a successful transfer whose upload response has a body, the
    invocation returns an item (decoding never throws) in which
    [uploadResponse] is the decoded value when the body is text that
    [JSON.parse] accepts, the text itself when [JSON.parse] rejects it, and
    the body itself when it is not text. *)
Theorem C7_upload_response_is_decoded_or_raw p itemIndex dh uh dresp uresp :
  isConfigured p dh uh ->
  downloads p dh dresp ->
  passes (statusCode dresp) ->
  streamable (body dresp) ->
  uploads p uh dresp uresp ->
  passes (statusCode uresp) ->
  body uresp <> JsUndefined ->
  exists r,
    fst (invoke p itemIndex) = Ok r /\
    success (json r) = Some true /\
    (forall s v, body uresp = JsString s -> JSON_parse s = Some v ->
                 uploadResponse (json r) = Some v) /\
    (forall s, body uresp = JsString s -> JSON_parse s = None ->
               uploadResponse (json r) = Some (JsString s)) /\
    ((forall s, body uresp <> JsString s) ->
     uploadResponse (json r) = Some (body uresp)).
Proof.
  intros Hc Hd Hp Hs Hu Hq Hdef.
  rewrite (invoke_success _ _ _ _ _ _ Hc Hd Hp Hs Hu Hq).
  eexists. split; [reflexivity|]. split; [reflexivity|]. simpl.
  split; [|split].
  - intros s v -> Hv. simpl. rewrite Hv. reflexivity.
  - intros s -> Hv. simpl. rewrite Hv. reflexivity.
  - intros Hns. destruct (body uresp); try reflexivity; [contradiction | ].
    exfalso. eapply Hns. reflexivity.
Qed.

(** *** Headers of the upload request *)

Lemma setLength_lookup c (h : Headers) :
  setLength String_number c h !! "Content-Length" =
    match positiveLength c with
    | Some n => Some (String_number n)
    | None => h !! "Content-Length"
    end.
Proof.
  unfold setLength, positiveLength. cbv zeta.
  destruct (negb (isNaN (toLength c)) && gt0 (toLength c));
    [apply lookup_insert_eq | reflexivity].
Qed.

Lemma setLength_lookup_ne c (h : Headers) k :
  k <> "Content-Length" -> setLength String_number c h !! k = h !! k.
Proof.
  intros Hk. unfold setLength.
  destruct (negb (isNaN (toLength c)) && gt0 (toLength c)); [|reflexivity].
  apply lookup_insert_ne. congruence.
Qed.

Lemma addBearer_lookup_ne token (h : Headers) k :
  k <> "Authorization" -> addBearer token h !! k = h !! k.
Proof.
  intros Hk. unfold addBearer. destruct token as [t|]; [|reflexivity].
  destruct (truthy_string t && falsyAt h "Authorization" && falsyAt h "authorization");
    [|reflexivity].
  apply lookup_insert_ne. congruence.
Qed.

Lemma defaultUploadHeaders_lookup (uh : Headers) k :
  defaultUploadHeaders uh !! k =
    match uh !! k with
    | Some v => Some v
    | None => ({[ "Content-Type" := "application/octet-stream" ]} : Headers) !! k
    end.
Proof.
  unfold defaultUploadHeaders. rewrite lookup_union.
  destruct (uh !! k), (({[ "Content-Type" := "application/octet-stream" ]} : Headers) !! k);
    reflexivity.
Qed.

Lemma uploadHeadersAfter_lookup_ne p uh resp k :
  k <> "Content-Length" ->
  uploadHeadersAfter p uh resp !! k =
    addBearer (extractBearerToken (uploadUrl p)) (defaultUploadHeaders uh) !! k.
Proof.
  intros Hk. unfold uploadHeadersAfter, finalUploadHeaders, detectedUploadHeaders,
    preparedUploadHeaders.
  destruct (actualContentLength _ _) as [a|];
    [destruct (truthy_length a && falsyAt _ "Content-Length")|];
    rewrite ?setLength_lookup_ne by assumption;
    destruct (truthy_length (contentLength p));
    rewrite ?setLength_lookup_ne by assumption; reflexivity.
Qed.

Lemma falsyAt_same (h h' : Headers) k : h !! k = h' !! k -> falsyAt h k = falsyAt h' k.
Proof. unfold falsyAt. intros ->. reflexivity. Qed.

Lemma uploadHeadersAfter_length p uh resp :
  uploadHeadersAfter p uh resp !! "Content-Length" =
    match chosenLength (contentLength p) uh
            (default ∅ (headers resp) !! "content-length") with
    | Some n => Some (String_number n)
    | None => uh !! "Content-Length"
    end.
Proof.
  set (h0 := addBearer (extractBearerToken (uploadUrl p)) (defaultUploadHeaders uh)).
  assert (h0 !! "Content-Length" = uh !! "Content-Length") as Hown.
  { unfold h0. rewrite addBearer_lookup_ne by discriminate.
    rewrite defaultUploadHeaders_lookup. destruct (uh !! "Content-Length"); reflexivity. }
  unfold uploadHeadersAfter, finalUploadHeaders, detectedUploadHeaders,
    preparedUploadHeaders, actualContentLength, chosenLength.
  fold h0. destruct (truthy_length (contentLength p)) eqn:Et.
  - rewrite Et. simpl.
    destruct (falsyAt (setLength String_number (contentLength p) h0) "Content-Length");
      rewrite !setLength_lookup; destruct (positiveLength (contentLength p));
      rewrite ?Hown; reflexivity.
  - rewrite (falsyAt_same uh h0 "Content-Length") by (symmetry; exact Hown).
    destruct (default ∅ (headers resp) !! "content-length") as [s|]; simpl.
    + destruct (truthy_string s) eqn:Es; simpl.
      * destruct (falsyAt h0 "Content-Length"); [|exact Hown].
        rewrite setLength_lookup. destruct (positiveLength (CLString s));
          [reflexivity | exact Hown].
      * destruct s; [|discriminate].
        destruct (falsyAt h0 "Content-Length"); exact Hown.
    + destruct (falsyAt h0 "Content-Length"); exact Hown.
Qed.

Lemma no_header_lookup (h : Headers) name k :
  ~ hasHeader h name -> toLowerCase k = toLowerCase name -> h !! k = None.
Proof.
  intros Hno Hk. destruct (h !! k) eqn:E; [|reflexivity].
  exfalso. apply Hno. exists k. rewrite E. split; [eexists; reflexivity | exact Hk].
Qed.

(** C6: when the upload URL carries a non-empty [bearer] token and the
    upload headers have no Authorization header in any letter case, the
    upload request has the header [Authorization: Bearer <token>] and is
    issued against the upload URL exactly as it was given. *)
Theorem C6_bearer_is_mirrored_and_url_kept p itemIndex dh uh resp token :
  isConfigured p dh uh ->
  downloads p dh resp ->
  passes (statusCode resp) ->
  streamable (body resp) ->
  extractBearerToken (uploadUrl p) = Some token ->
  token <> "" ->
  ~ hasHeader uh "Authorization" ->
  exists upload,
    snd (invoke p itemIndex) = [downloadOptions p dh; upload] /\
    req_url upload = uploadUrl p /\
    req_headers upload !! "Authorization" = Some ("Bearer " +:+ token).
Proof.
  intros Hc Hd Hp Hs Htoken Hne Hno.
  eexists. split; [apply (invoke_streamed _ _ _ _ _ Hc Hd Hp Hs)|].
  split; [reflexivity|]. simpl.
  rewrite uploadHeadersAfter_lookup_ne by discriminate.
  rewrite Htoken. unfold addBearer.
  assert (forall k, toLowerCase k = toLowerCase "Authorization" ->
                    falsyAt (defaultUploadHeaders uh) k = true) as Hfalsy.
  { intros k Hk. unfold falsyAt. rewrite defaultUploadHeaders_lookup.
    rewrite (no_header_lookup _ _ _ Hno Hk).
    destruct (decide (k = "Content-Type")) as [->|Hk'].
    - discriminate Hk.
    - rewrite lookup_singleton_ne by congruence. reflexivity. }
  rewrite !Hfalsy by reflexivity.
  destruct token; [contradiction|]. simpl. apply lookup_insert_eq.
Qed.

(** C5 (amended): the headers of the download request are the default
    [Accept: */*] merged with the user's download headers, and the upload
    headers start as the default [Content-Type: application/octet-stream]
    merged with the user's upload headers; in both a user header replaces
    the default of exactly the same name (names are compared as they are
    spelled). *)
Theorem C5_user_headers_replace_same_spelling (user : Headers) :
  mergedExactly {[ "Accept" := "*/*" ]} user (finalDownloadHeaders user) /\
  mergedExactly {[ "Content-Type" := "application/octet-stream" ]} user
    (defaultUploadHeaders user).
Proof.
  split; intros k.
  - unfold finalDownloadHeaders. rewrite lookup_union.
    destruct (user !! k), (({[ "Accept" := "*/*" ]} : Headers) !! k); reflexivity.
  - apply defaultUploadHeaders_lookup.
Qed.

(** C2 (amended): the Content-Length of the upload request is chosen as
    follows.  A truthy explicit [contentLength] decides alone: with [n] the
    input itself when it is a number and [parseInt(input, 10)] when it is
    text, the header is set to [String(n)] when [n] is not NaN and greater
    than zero, and nothing is set otherwise.  Only when the explicit input
    is falsy (empty, zero, NaN) and the upload headers hold no non-empty
    value under the key [Content-Length] is the header of the download
    response under the key [content-length] used, in the same way: parsed,
    and its [String] sent when the number is not NaN and greater than zero.
    In every other case the operation sets no Content-Length and the upload
    headers keep what the user gave under that key. *)
Theorem C2_content_length_is_chosen_by_presence p itemIndex dh uh resp :
  isConfigured p dh uh ->
  downloads p dh resp ->
  passes (statusCode resp) ->
  streamable (body resp) ->
  exists upload,
    snd (invoke p itemIndex) = [downloadOptions p dh; upload] /\
    req_headers upload !! "Content-Length" =
      match chosenLength (contentLength p) uh
              (default ∅ (headers resp) !! "content-length") with
      | Some n => Some (String_number n)
      | None => uh !! "Content-Length"
      end.
Proof.
  intros Hc Hd Hp Hs.
  eexists. split; [apply (invoke_streamed _ _ _ _ _ Hc Hd Hp Hs)|].
  apply uploadHeadersAfter_length.
Qed.

(** C1 (amended): when the download response has no status code or one
    within [200, 300) and its body is a Buffer, the invocation fails with
    the buffered-response error, whose message embeds the byte length of
    the buffer: the error is raised when [throwOnError] is on and returned
    in a failure item otherwise, and no upload request is issued. *)
Theorem C1_buffered_body_fails_when_status_passes p itemIndex dh uh resp data :
  isConfigured p dh uh ->
  downloads p dh resp ->
  passes (statusCode resp) ->
  body resp = JsBuffer data ->
  exists message,
    message = enhancedMessage (downloadUrl p) (uploadUrl p)
                (bufferedMessage (downloadUrl p) data) /\
    includes (string_of_Z (Z.of_nat (length data))) message = true /\
    invoke p itemIndex =
      ((if throwOnError p then Throw message
        else Ok (item itemIndex
                   {| success := Some false; error := Some message;
                      downloadStatus := None; uploadStatus := None;
                      uploadResponse := None;
                      json_downloadUrl := Some (downloadUrl p);
                      json_uploadUrl := Some (uploadUrl p) |})),
       [downloadOptions p dh]).
Proof.
  intros Hc Hd Hp%failedStatus_passes Hbody.
  eexists. split; [reflexivity|]. split.
  - apply includes_enhancedMessage. unfold bufferedMessage.
    do 4 apply includes_append_r. apply includes_here.
  - rewrite (invoke_configured _ _ _ _ Hc). unfold tryCatch.
    rewrite (transfer_buffered _ _ _ _ _ _ Hd Hp Hbody).
    apply recover_spec.
Qed.

Lemma transfer_failure p itemIndex dh uh diagnostic :
  throwOnError p = true ->
  Failure p dh uh diagnostic ->
  exists log, attempt p itemIndex dh uh [] = (Throw diagnostic, log).
Proof.
  intros Hthrow HF. destruct HF as
    [resp code Hd Hcode | resp data Hd Hcode Hbody | resp Hd Hcode Hbuf Hpipe
    | resp uresp code Hd Hcode Hs Hu Hcode' | message Hreq
    | resp message Hd Hcode Hs Hreq].
  - rewrite (transfer_download_failed _ _ _ _ _ _ Hd Hcode), Hthrow. eauto.
  - rewrite (transfer_buffered _ _ _ _ _ _ Hd Hcode Hbody). eauto.
  - rewrite (transfer_not_streamable _ _ _ _ _ Hd Hcode Hbuf Hpipe). eauto.
  - rewrite (transfer_streamed _ _ _ _ _ Hd Hcode Hs). cbv zeta.
    unfold uploads, uploaded in Hu. rewrite Hu, Hcode', Hthrow. eauto.
  - unfold attempt, transfer, bind, helpers_request. rewrite Hreq. eauto.
  - rewrite (transfer_streamed _ _ _ _ _ Hd Hcode Hs). cbv zeta.
    rewrite Hreq. eauto.
Qed.

(** Conversely, the terminal failures are the only ways in which the [try]
    block throws. *)
Lemma transfer_throws_failure p itemIndex dh uh message log :
  attempt p itemIndex dh uh [] = (Throw message, log) ->
  Failure p dh uh message.
Proof.
  unfold attempt, transfer, bind, helpers_request.
  destruct (request (downloadOptions p dh)) as [resp|e] eqn:Hreq; simpl.
  - destruct (failedStatus (statusCode resp)) as [code|] eqn:Hcode.
    + destruct (throwOnError p); intros [= <- _].
      eapply DownloadFailed; eassumption.
    + destruct (hasPipe (body resp)) eqn:Hpipe.
      * destruct (body resp) as [| | | | | |id|] eqn:Hbody; try discriminate. simpl.
        assert (streamable (body resp)) as Hs by (rewrite Hbody; eexists; reflexivity).
        destruct (request (uploadOptions p _ (JsReadable id))) as [uresp|e] eqn:Hup.
        -- destruct (failedStatus (statusCode uresp)) as [code|] eqn:Hcode';
             [|discriminate].
           destruct (throwOnError p); intros [= <- _].
           eapply UploadFailed; try eassumption.
           unfold uploaded, finalUploadHeaders. rewrite Hbody. exact Hup.
        -- intros [= <- _]. eapply UploadTransportError; try eassumption.
           unfold finalUploadHeaders. rewrite Hbody. exact Hup.
      * destruct (isBuffer (body resp)) eqn:Hbuf.
        -- destruct (body resp) as [| | | | |data| |] eqn:Hbody; try discriminate.
           intros [= <- _]. eapply StreamBuffered; eassumption.
        -- destruct (body resp) eqn:Hbody; try discriminate; simpl;
             rewrite ?orb_true_r; intros [= <- _]; rewrite <- Hbody;
             eapply StreamNotStreamable; rewrite ?Hbody; eauto.
  - intros [= <- _]. apply DownloadTransportError. exact Hreq.
Qed.

(** C4 (amended): every terminal failure (download status, stream
    validation, upload status, transport) with [throwOnError] on is raised,
    and no item is returned.  The message raised is the one the [catch]
    block builds from the diagnostic string of the failure: the diagnostic
    itself when it contains "Download URL" or "Upload URL", and otherwise
    the diagnostic between "File transfer failed: " and the two URLs.  The
    diagnostic is always part of the message raised. *)
Theorem C4_failure_is_raised_with_enhanced_message p itemIndex dh uh diagnostic :
  isConfigured p dh uh ->
  throwOnError p = true ->
  Failure p dh uh diagnostic ->
  fst (invoke p itemIndex) =
    Throw (enhancedMessage (downloadUrl p) (uploadUrl p) diagnostic) /\
  enhancedMessage (downloadUrl p) (uploadUrl p) diagnostic =
    (if includes "Download URL" diagnostic || includes "Upload URL" diagnostic
     then diagnostic
     else "File transfer failed: " +:+ diagnostic +:+ ". Download URL: " +:+
          downloadUrl p +:+ ", Upload URL: " +:+ uploadUrl p) /\
  includes diagnostic (enhancedMessage (downloadUrl p) (uploadUrl p) diagnostic) = true.
Proof.
  intros Hc Hthrow HF. split; [|split].
  - destruct (transfer_failure p itemIndex dh uh diagnostic Hthrow HF) as [log Hlog].
    rewrite (invoke_configured _ _ _ _ Hc). unfold tryCatch.
    rewrite Hlog, recover_spec, Hthrow. reflexivity.
  - reflexivity.
  - apply includes_enhancedMessage, includes_refl.
Qed.

(** C3: the guard that keeps an Authorization header of the user looks at
    the two spellings [Authorization] and [authorization] only.  When
    neither holds a non-empty value and the upload URL carries a non-empty
    token, the upload request gets [Authorization: Bearer <token>], and
    every other header of the user, an Authorization header in another
    letter case included, is sent along with it.  The specification asks
    that no Authorization header be added in that case. *)
Theorem C3_bearer_added_beside_other_spelling p itemIndex dh uh resp token :
  isConfigured p dh uh ->
  downloads p dh resp ->
  passes (statusCode resp) ->
  streamable (body resp) ->
  extractBearerToken (uploadUrl p) = Some token ->
  token <> "" ->
  falsyAt uh "Authorization" = true ->
  falsyAt uh "authorization" = true ->
  exists upload,
    snd (invoke p itemIndex) = [downloadOptions p dh; upload] /\
    req_headers upload !! "Authorization" = Some ("Bearer " +:+ token) /\
    (forall k v, k <> "Authorization" -> k <> "Content-Length" ->
                 uh !! k = Some v -> req_headers upload !! k = Some v).
Proof.
  intros Hc Hd Hp Hs Htoken Hne HA Ha.
  assert (forall k, falsyAt uh k = true -> k <> "Content-Type" ->
                    falsyAt (defaultUploadHeaders uh) k = true) as Hfalsy.
  { intros k Hk Hk'. unfold falsyAt in *. rewrite defaultUploadHeaders_lookup.
    destruct (uh !! k); [exact Hk|].
    rewrite lookup_singleton_ne by congruence. reflexivity. }
  eexists. split; [apply (invoke_streamed _ _ _ _ _ Hc Hd Hp Hs)|]. simpl. split.
  - rewrite uploadHeadersAfter_lookup_ne by discriminate.
    rewrite Htoken. unfold addBearer.
    rewrite !Hfalsy by (assumption || discriminate).
    destruct token; [contradiction|]. apply lookup_insert_eq.
  - intros k v HkA HkL Hv.
    rewrite uploadHeadersAfter_lookup_ne by assumption.
    rewrite addBearer_lookup_ne by assumption.
    rewrite defaultUploadHeaders_lookup, Hv. reflexivity.
Qed.

(** ** Further properties of the operation *)

(** *** The ways one invocation can go *)

Lemma transfer_download_error p itemIndex dh uh message :
  request (downloadOptions p dh) = Throw message ->
  attempt p itemIndex dh uh [] = (Throw message, [downloadOptions p dh]).
Proof.
  intros Hreq. unfold attempt, transfer, bind, helpers_request.
  rewrite Hreq. reflexivity.
Qed.

(** What becomes of the download request and its response. *)
Lemma download_cases p dh :
  (exists message, request (downloadOptions p dh) = Throw message) \/
  (exists resp code, downloads p dh resp /\ failedStatus (statusCode resp) = Some code) \/
  (exists resp data, downloads p dh resp /\ failedStatus (statusCode resp) = None /\
                     body resp = JsBuffer data) \/
  (exists resp, downloads p dh resp /\ failedStatus (statusCode resp) = None /\
                isBuffer (body resp) = false /\ hasPipe (body resp) = false) \/
  (exists resp, downloads p dh resp /\ failedStatus (statusCode resp) = None /\
                streamable (body resp)).
Proof.
  unfold downloads, downloaded.
  destruct (request (downloadOptions p dh)) as [resp|message]; [|eauto].
  right. destruct (failedStatus (statusCode resp)) as [code|] eqn:Hcode; [eauto 6|].
  right. destruct (body resp) as [| | | | |data|id|] eqn:Hbody;
    try (right; left; exists resp; rewrite Hbody; eauto; fail).
  - left. eauto 6.
  - right. right. exists resp. rewrite Hbody. unfold streamable. eauto.
Qed.

Lemma failedStatus_outside code c :
  failedStatus code = Some c <-> code = Some c /\ (c < 200 \/ 300 <= c).
Proof.
  destruct code as [c'|]; simpl; [|split; [discriminate | intros [[=] _]]].
  destruct (c' <? 200) eqn:E1, (300 <=? c') eqn:E2; simpl; split;
    try (intros [= <-]; split; [reflexivity | lia]);
    try (intros [[= ->] _]; reflexivity);
    try discriminate.
  intros [[= ->] ?]. lia.
Qed.

(** X1: a download answered with any status code outside [200, 300),
    whatever its body is, ends the invocation after the download request:
    the diagnostic names the code and the download URL; it is returned
    as it is in an item that carries the code when [throwOnError] is off,
    and raised through the [catch] block when it is on. *)
Theorem download_status_failure_outcome p itemIndex dh uh resp code :
  isConfigured p dh uh ->
  downloads p dh resp ->
  statusCode resp = Some code ->
  code < 200 \/ 300 <= code ->
  includes (string_of_Z code) (downloadFailedMessage code (downloadUrl p)) = true /\
  includes (downloadUrl p) (downloadFailedMessage code (downloadUrl p)) = true /\
  invoke p itemIndex =
    ((if throwOnError p
      then Throw (enhancedMessage (downloadUrl p) (uploadUrl p)
                    (downloadFailedMessage code (downloadUrl p)))
      else Ok (item itemIndex
                 {| success := None;
                    error := Some (downloadFailedMessage code (downloadUrl p));
                    downloadStatus := Some code; uploadStatus := None;
                    uploadResponse := None;
                    json_downloadUrl := Some (downloadUrl p);
                    json_uploadUrl := None |})),
     [downloadOptions p dh]).
Proof.
  intros Hc Hd Hcode Hout.
  assert (failedStatus (statusCode resp) = Some code) as Hfailed
    by (apply failedStatus_outside; auto).
  split; [|split].
  - unfold downloadFailedMessage. apply includes_append_r, includes_here.
  - unfold downloadFailedMessage. do 3 apply includes_append_r. apply includes_here.
  - rewrite (invoke_configured _ _ _ _ Hc). unfold tryCatch.
    rewrite (transfer_download_failed _ _ _ _ _ _ Hd Hfailed).
    destruct (throwOnError p) eqn:Ht; [|reflexivity].
    rewrite recover_spec, Ht. reflexivity.
Qed.

(** X2: an upload answered with a status code outside [200, 300) ends the
    invocation after both requests: the diagnostic names the code, the
    upload URL and the method; it is returned as it is, with both status
    codes and both URLs, when [throwOnError] is off, and raised through the
    [catch] block when it is on. *)
Theorem upload_status_failure_outcome p itemIndex dh uh dresp uresp code :
  isConfigured p dh uh ->
  downloads p dh dresp ->
  passes (statusCode dresp) ->
  streamable (body dresp) ->
  uploads p uh dresp uresp ->
  statusCode uresp = Some code ->
  code < 200 \/ 300 <= code ->
  includes (string_of_Z code) (uploadFailedMessage code (uploadUrl p) (method p)) = true /\
  includes (uploadUrl p) (uploadFailedMessage code (uploadUrl p) (method p)) = true /\
  includes (method p) (uploadFailedMessage code (uploadUrl p) (method p)) = true /\
  invoke p itemIndex =
    ((if throwOnError p
      then Throw (enhancedMessage (downloadUrl p) (uploadUrl p)
                    (uploadFailedMessage code (uploadUrl p) (method p)))
      else Ok (item itemIndex
                 {| success := None;
                    error := Some (uploadFailedMessage code (uploadUrl p) (method p));
                    downloadStatus := statusCode dresp;
                    uploadStatus := Some code;
                    uploadResponse := None;
                    json_downloadUrl := Some (downloadUrl p);
                    json_uploadUrl := Some (uploadUrl p) |})),
     [downloadOptions p dh;
      uploadOptions p (uploadHeadersAfter p uh dresp) (body dresp)]).
Proof.
  intros Hc Hd Hp%failedStatus_passes Hs Hu Hcode Hout.
  assert (failedStatus (statusCode uresp) = Some code) as Hfailed
    by (apply failedStatus_outside; auto).
  split; [|split; [|split]].
  - unfold uploadFailedMessage. apply includes_append_r, includes_here.
  - unfold uploadFailedMessage. do 3 apply includes_append_r. apply includes_here.
  - unfold uploadFailedMessage. do 6 apply includes_append_r. apply includes_here.
  - rewrite (invoke_configured _ _ _ _ Hc). unfold tryCatch.
    rewrite (transfer_streamed _ _ _ _ _ Hd Hp Hs). cbv zeta.
    unfold uploads, uploaded in Hu. rewrite Hu, Hfailed.
    destruct (throwOnError p) eqn:Ht; [|reflexivity].
    rewrite recover_spec, Ht. reflexivity.
Qed.

(** X3: a body that is neither a Buffer nor an object with a [pipe]
    function (a parsed object, a string, nothing at all) makes the
    invocation fail after the download request, without any upload: the
    message names the type of the body and its constructor, and it is
    raised when [throwOnError] is on and returned in a failure item
    otherwise. *)
Theorem not_streamable_body_outcome p itemIndex dh uh resp :
  isConfigured p dh uh ->
  downloads p dh resp ->
  passes (statusCode resp) ->
  isBuffer (body resp) = false ->
  hasPipe (body resp) = false ->
  exists message,
    message = enhancedMessage (downloadUrl p) (uploadUrl p)
                (notStreamableMessage (downloadUrl p) (body resp)) /\
    includes (typeof (body resp)) message = true /\
    includes (bodyConstructor (body resp)) message = true /\
    invoke p itemIndex =
      ((if throwOnError p then Throw message
        else Ok (item itemIndex
                   {| success := Some false; error := Some message;
                      downloadStatus := None; uploadStatus := None;
                      uploadResponse := None;
                      json_downloadUrl := Some (downloadUrl p);
                      json_uploadUrl := Some (uploadUrl p) |})),
       [downloadOptions p dh]).
Proof.
  intros Hc Hd Hp%failedStatus_passes Hbuf Hpipe.
  eexists. split; [reflexivity|]. split; [|split].
  - apply includes_enhancedMessage. unfold notStreamableMessage.
    do 4 apply includes_append_r. apply includes_here.
  - apply includes_enhancedMessage. unfold notStreamableMessage.
    do 6 apply includes_append_r. apply includes_here.
  - rewrite (invoke_configured _ _ _ _ Hc). unfold tryCatch.
    rewrite (transfer_not_streamable _ _ _ _ _ Hd Hp Hbuf Hpipe).
    apply recover_spec.
Qed.

(** X4: when the download request is rejected by the transport, the
    invocation ends after that one request; the message of the transport,
    enhanced by the [catch] block, is raised when [throwOnError] is on and
    returned in a failure item with both URLs otherwise. *)
Theorem download_transport_error_outcome p itemIndex dh uh message :
  isConfigured p dh uh ->
  request (downloadOptions p dh) = Throw message ->
  invoke p itemIndex =
    ((if throwOnError p
      then Throw (enhancedMessage (downloadUrl p) (uploadUrl p) message)
      else Ok (item itemIndex
                 {| success := Some false;
                    error := Some (enhancedMessage (downloadUrl p) (uploadUrl p) message);
                    downloadStatus := None; uploadStatus := None;
                    uploadResponse := None;
                    json_downloadUrl := Some (downloadUrl p);
                    json_uploadUrl := Some (uploadUrl p) |})),
     [downloadOptions p dh]).
Proof.
  intros Hc Hreq.
  rewrite (invoke_configured _ _ _ _ Hc). unfold tryCatch.
  rewrite (transfer_download_error _ _ _ _ _ Hreq). apply recover_spec.
Qed.

(** X5: when the upload request is rejected by the transport, the
    invocation ends after the two requests; the message of the transport,
    enhanced by the [catch] block, is raised when [throwOnError] is on and
    returned in a failure item otherwise; the status of the download is not
    reported. *)
Theorem upload_transport_error_outcome p itemIndex dh uh resp message :
  isConfigured p dh uh ->
  downloads p dh resp ->
  passes (statusCode resp) ->
  streamable (body resp) ->
  request (uploadOptions p (uploadHeadersAfter p uh resp) (body resp)) = Throw message ->
  invoke p itemIndex =
    ((if throwOnError p
      then Throw (enhancedMessage (downloadUrl p) (uploadUrl p) message)
      else Ok (item itemIndex
                 {| success := Some false;
                    error := Some (enhancedMessage (downloadUrl p) (uploadUrl p) message);
                    downloadStatus := None; uploadStatus := None;
                    uploadResponse := None;
                    json_downloadUrl := Some (downloadUrl p);
                    json_uploadUrl := Some (uploadUrl p) |})),
     [downloadOptions p dh;
      uploadOptions p (uploadHeadersAfter p uh resp) (body resp)]).
Proof.
  intros Hc Hd Hp%failedStatus_passes Hs Hreq.
  rewrite (invoke_configured _ _ _ _ Hc). unfold tryCatch.
  rewrite (transfer_streamed _ _ _ _ _ Hd Hp Hs). cbv zeta.
  rewrite Hreq. apply recover_spec.
Qed.

(** X6: when both URLs are filled in and a header specification does not
    parse, the error of [parseHeaders] is raised as it is, whatever
    [throwOnError] says, and no request is issued. *)
Theorem header_parse_error_is_raised p itemIndex message :
  blank (downloadUrl p) = false ->
  blank (uploadUrl p) = false ->
  parseHeaders (downloadHeadersParam p) = Throw message \/
  ((exists dh, parseHeaders (downloadHeadersParam p) = Ok dh) /\
   parseHeaders (uploadHeadersParam p) = Throw message) ->
  invoke p itemIndex = (Throw message, []).
Proof.
  intros Hd Hu H. unfold invoke, execute. rewrite Hd, Hu. unfold bind, lift.
  destruct H as [H | [[dh Hdh] H]].
  - rewrite H. reflexivity.
  - rewrite Hdh, H. reflexivity.
Qed.

(** Every invocation ends in one of the ways of [Ending]. *)
Lemma invoke_ending p itemIndex :
  Ending String_number parseHeaders extractBearerToken JSON_parse request p itemIndex
    (invoke p itemIndex).
Proof.
  assert ((exists message, invoke p itemIndex = (Throw message, [])) \/
          exists dh uh, isConfigured p dh uh) as [[message ->] | (dh & uh & Hc)].
  { unfold invoke, execute, isConfigured, configured, bind, lift.
    destruct (blank (downloadUrl p)); [eauto|].
    destruct (blank (uploadUrl p)); [eauto|].
    destruct (parseHeaders (downloadHeadersParam p)) as [dh|e]; [|eauto].
    destruct (parseHeaders (uploadHeadersParam p)) as [uh|e]; [|eauto].
    right. exists dh, uh. auto. }
  { constructor. }
  rewrite (invoke_configured _ _ _ _ Hc). unfold tryCatch.
  destruct (download_cases p dh) as
    [(e & Hreq) | [(resp & code & Hd & Hcode) | [(resp & data & Hd & Hcode & Hbody)
    | [(resp & Hd & Hcode & Hbuf & Hpipe) | (resp & Hd & Hcode & Hs)]]]].
  - rewrite (transfer_download_error _ _ _ _ _ Hreq).
    eapply EndsCaughtAfterDownload; eassumption.
  - rewrite (transfer_download_failed _ _ _ _ _ _ Hd Hcode).
    destruct (throwOnError p) eqn:Ht.
    + eapply EndsCaughtAfterDownload; eassumption.
    + eapply EndsDownloadRefused; eassumption.
  - rewrite (transfer_buffered _ _ _ _ _ _ Hd Hcode Hbody).
    eapply EndsCaughtAfterDownload; eassumption.
  - rewrite (transfer_not_streamable _ _ _ _ _ Hd Hcode Hbuf Hpipe).
    eapply EndsCaughtAfterDownload; eassumption.
  - rewrite (transfer_streamed _ _ _ _ _ Hd Hcode Hs). cbv zeta.
    pose proof (proj2 (failedStatus_passes _) Hcode) as Hp.
    destruct (request (uploadOptions p _ (body resp))) as [uresp|e] eqn:Hu.
    + destruct (failedStatus (statusCode uresp)) as [code|] eqn:Hcode'.
      * destruct (throwOnError p) eqn:Ht.
        -- eapply EndsCaughtAfterUpload; eassumption.
        -- eapply EndsUploadRefused; eassumption.
      * eapply EndsSuccess; try eassumption.
        apply failedStatus_passes. exact Hcode'.
    + eapply EndsCaughtAfterUpload; eassumption.
Qed.

Lemma statusOr200_passes code :
  passes code -> 200 <= statusOr200 code < 300.
Proof.
  destruct code as [c|]; simpl; [|lia].
  intros H. destruct (c =? 0) eqn:E; lia.
Qed.

(** X7: within one invocation at most two requests are issued, in this
    order: the download request, and then, only when the download was
    answered with a passing status and a body that can be piped, the upload
    request, which carries that body. *)
Theorem requests_are_download_then_upload p itemIndex :
  snd (invoke p itemIndex) = [] \/
  (exists dh, snd (invoke p itemIndex) = [downloadOptions p dh]) \/
  (exists dh uh resp,
     downloads p dh resp /\ passes (statusCode resp) /\ streamable (body resp) /\
     snd (invoke p itemIndex) =
       [downloadOptions p dh;
        uploadOptions p (uploadHeadersAfter p uh resp) (body resp)]).
Proof.
  destruct (invoke_ending p itemIndex); rewrite ?recover_spec; simpl; eauto 10.
Qed.

(** X8: an invocation that returns an item with [success: true] reports a
    download status and an upload status that both lie within [200, 300),
    reports no error, and has issued exactly two requests. *)
Theorem success_reports_passing_statuses p itemIndex r :
  fst (run String_number parseHeaders extractBearerToken JSON_parse request p itemIndex) = Ok r ->
  success (json r) = Some true ->
  (exists c, downloadStatus (json r) = Some c /\ 200 <= c < 300) /\
  (exists c, uploadStatus (json r) = Some c /\ 200 <= c < 300) /\
  error (json r) = None /\
  length (snd (run String_number parseHeaders extractBearerToken JSON_parse request p itemIndex)) = 2%nat.
Proof.
  destruct (invoke_ending p itemIndex); rewrite ?recover_spec; simpl;
    try discriminate; try (destruct (throwOnError p); simpl; discriminate).
  - destruct (throwOnError p); simpl; [discriminate|]. intros [= <-]. discriminate.
  - destruct (throwOnError p); simpl; [discriminate|]. intros [= <-]. discriminate.
  - intros [= <-]. discriminate.
  - intros [= <-]. discriminate.
  - intros [= <-] _. simpl. repeat split; eauto using statusOr200_passes.
Qed.

(** X9: once both URLs are filled in and both header specifications
    parse, an invocation with [throwOnError] off never raises an error: it
    always returns an item. *)
Theorem returning_policy_never_raises p itemIndex dh uh :
  isConfigured p dh uh ->
  throwOnError p = false ->
  exists r, fst (run String_number parseHeaders extractBearerToken JSON_parse request p itemIndex) = Ok r.
Proof.
  intros Hc Ht. rewrite (invoke_configured _ _ _ _ Hc). unfold tryCatch.
  destruct (download_cases p dh) as
    [(e & Hreq) | [(resp & code & Hd & Hcode) | [(resp & data & Hd & Hcode & Hbody)
    | [(resp & Hd & Hcode & Hbuf & Hpipe) | (resp & Hd & Hcode & Hs)]]]].
  - rewrite (transfer_download_error _ _ _ _ _ Hreq), recover_spec, Ht. eauto.
  - rewrite (transfer_download_failed _ _ _ _ _ _ Hd Hcode), Ht. eauto.
  - rewrite (transfer_buffered _ _ _ _ _ _ Hd Hcode Hbody), recover_spec, Ht. eauto.
  - rewrite (transfer_not_streamable _ _ _ _ _ Hd Hcode Hbuf Hpipe), recover_spec, Ht.
    eauto.
  - rewrite (transfer_streamed _ _ _ _ _ Hd Hcode Hs). cbv zeta.
    destruct (request _) as [uresp|e].
    + destruct (failedStatus (statusCode uresp)); rewrite ?Ht; eauto.
    + rewrite recover_spec, Ht. eauto.
Qed.

(** X10: with [throwOnError] on, the only item an invocation ever
    returns is the item of a success; every failure is raised. *)
Theorem raising_policy_returns_only_success p itemIndex r :
  throwOnError p = true ->
  fst (run String_number parseHeaders extractBearerToken JSON_parse request p itemIndex) = Ok r ->
  success (json r) = Some true /\ error (json r) = None.
Proof.
  intros Ht. destruct (invoke_ending p itemIndex); rewrite ?recover_spec, ?Ht; simpl;
    try discriminate; try congruence.
  intros [= <-]. split; reflexivity.
Qed.

(** X11: every item that is returned is paired with the index of the
    input item, and it is either the item of a success, without an error
    message, or an item with an error message that does not claim success. *)
Theorem returned_item_is_success_or_error p itemIndex r :
  fst (run String_number parseHeaders extractBearerToken JSON_parse request p itemIndex) = Ok r ->
  pairedItem r = itemIndex /\
  (success (json r) = Some true /\ error (json r) = None \/
   success (json r) <> Some true /\ exists message, error (json r) = Some message).
Proof.
  destruct (invoke_ending p itemIndex); rewrite ?recover_spec; simpl;
    try discriminate;
    try (destruct (throwOnError p); simpl; [discriminate|]);
    intros [= <-]; simpl; split; try reflexivity;
    try (right; split; [discriminate | eauto]; fail).
  left. split; reflexivity.
Qed.

(** *** Messages *)

Lemma includes_literal (pat literal rest : string) :
  includes pat literal = true -> includes pat (literal +:+ rest) = true.
Proof. apply includes_append_l. Qed.

(** X12: the [catch] block adds its context at most once: a message that
    it has built is left as it is when it is enhanced again. *)
Theorem enhancedMessage_idempotent (dUrl uUrl message : string) :
  enhancedMessage dUrl uUrl (enhancedMessage dUrl uUrl message) =
  enhancedMessage dUrl uUrl message.
Proof.
  destruct (includes "Download URL" message || includes "Upload URL" message) eqn:E.
  - assert (enhancedMessage dUrl uUrl message = message) as ->
      by (unfold enhancedMessage; rewrite E; reflexivity).
    unfold enhancedMessage. rewrite E. reflexivity.
  - assert (enhancedMessage dUrl uUrl message =
            "File transfer failed: " +:+ message +:+ ". Download URL: " +:+ dUrl +:+
            ", Upload URL: " +:+ uUrl) as ->
      by (unfold enhancedMessage; rewrite E; reflexivity).
    unfold enhancedMessage.
    assert (includes "Download URL"
              ("File transfer failed: " +:+ message +:+ ". Download URL: " +:+ dUrl +:+
               ", Upload URL: " +:+ uUrl) = true) as ->.
    { do 2 apply includes_append_r. apply includes_literal. reflexivity. }
    reflexivity.
Qed.

Lemma length_substring0 (n : nat) (s : string) :
  String.length (substring0 n s) = Nat.min n (String.length s).
Proof.
  unfold substring0. revert s. induction n as [|n IH]; intros [|c s]; simpl;
    try reflexivity.
  rewrite IH. reflexivity.
Qed.

Lemma prefix_substring0 (n : nat) (s : string) :
  String.prefix (substring0 n s) s = true.
Proof.
  unfold substring0. revert s. induction n as [|n IH]; intros [|c s]; simpl;
    try reflexivity.
  destruct (ascii_dec c c); [apply IH | contradiction].
Qed.

(** X13: the preview of the body that the not-streamable message quotes is
    a prefix of the text of the body (its JSON text for a truthy object,
    its string conversion otherwise) and is never longer than 200
    characters. *)
Theorem bodyPreview_is_bounded_prefix (v : JsValue) :
  (String.length (bodyPreview v) <= 200)%nat /\
  String.prefix (bodyPreview v)
    (if truthy v && String.eqb (typeof v) "object"
     then JSON_stringify v else String_value v) = true.
Proof.
  unfold bodyPreview.
  destruct (truthy v && String.eqb (typeof v) "object");
    (split; [rewrite length_substring0; lia | apply prefix_substring0]).
Qed.

(** *** The upload request *)

Lemma defaultUploadHeaders_lookup_own (uh : Headers) k :
  k <> "Content-Type" -> defaultUploadHeaders uh !! k = uh !! k.
Proof.
  intros Hk. rewrite defaultUploadHeaders_lookup.
  destruct (uh !! k); [reflexivity|]. apply lookup_singleton_ne. congruence.
Qed.

(** X14: the upload request is issued with the configured method and with
    the body of the download response itself as its body; its Content-Type
    is the user's when the upload headers name one and
    [application/octet-stream] otherwise; and every other header of the
    user, the Authorization and Content-Length headers apart, is sent as
    given. *)
Theorem upload_request_carries_stream_and_headers p itemIndex dh uh resp :
  isConfigured p dh uh ->
  downloads p dh resp ->
  passes (statusCode resp) ->
  streamable (body resp) ->
  exists upload,
    snd (invoke p itemIndex) = [downloadOptions p dh; upload] /\
    req_method upload = method p /\
    req_body upload = Some (body resp) /\
    req_headers upload !! "Content-Type" =
      Some (default "application/octet-stream" (uh !! "Content-Type")) /\
    (forall k v, k <> "Authorization" -> k <> "Content-Length" ->
                 uh !! k = Some v -> req_headers upload !! k = Some v).
Proof.
  intros Hc Hd Hp Hs.
  eexists. split; [apply (invoke_streamed _ _ _ _ _ Hc Hd Hp Hs)|].
  split; [reflexivity|]. split; [reflexivity|]. simpl. split.
  - rewrite uploadHeadersAfter_lookup_ne by discriminate.
    rewrite addBearer_lookup_ne by discriminate.
    rewrite defaultUploadHeaders_lookup.
    destruct (uh !! "Content-Type"); reflexivity.
  - intros k v HkA HkL Hv.
    rewrite uploadHeadersAfter_lookup_ne by assumption.
    rewrite addBearer_lookup_ne by assumption.
    rewrite defaultUploadHeaders_lookup, Hv. reflexivity.
Qed.

Lemma addBearer_unchanged token (h : Headers) :
  token = None \/ token = Some "" \/
  falsyAt h "Authorization" = false \/ falsyAt h "authorization" = false ->
  addBearer token h = h.
Proof.
  unfold addBearer. intros [-> | [-> | [H | H]]]; try reflexivity;
    destruct token as [t|]; try reflexivity; rewrite H;
    rewrite ?andb_false_r; reflexivity.
Qed.

(** X15: no bearer header is added when the upload URL carries no token or
    an empty one, or when the upload headers hold a non-empty value under
    [Authorization] or under [authorization]: the upload request then has,
    under both spellings, exactly what the user gave. *)
Theorem authorization_is_left_alone p itemIndex dh uh resp :
  isConfigured p dh uh ->
  downloads p dh resp ->
  passes (statusCode resp) ->
  streamable (body resp) ->
  extractBearerToken (uploadUrl p) = None \/
  extractBearerToken (uploadUrl p) = Some "" \/
  falsyAt uh "Authorization" = false \/
  falsyAt uh "authorization" = false ->
  exists upload,
    snd (invoke p itemIndex) = [downloadOptions p dh; upload] /\
    req_headers upload !! "Authorization" = uh !! "Authorization" /\
    req_headers upload !! "authorization" = uh !! "authorization".
Proof.
  intros Hc Hd Hp Hs Hguard.
  assert (addBearer (extractBearerToken (uploadUrl p)) (defaultUploadHeaders uh) =
          defaultUploadHeaders uh) as Hsame.
  { apply addBearer_unchanged.
    rewrite (falsyAt_same (defaultUploadHeaders uh) uh "Authorization")
      by (apply defaultUploadHeaders_lookup_own; discriminate).
    rewrite (falsyAt_same (defaultUploadHeaders uh) uh "authorization")
      by (apply defaultUploadHeaders_lookup_own; discriminate).
    exact Hguard. }
  eexists. split; [apply (invoke_streamed _ _ _ _ _ Hc Hd Hp Hs)|]. simpl.
  rewrite !uploadHeadersAfter_lookup_ne by discriminate. rewrite Hsame.
  rewrite !defaultUploadHeaders_lookup_own by discriminate. split; reflexivity.
Qed.

(** *** The Content-Length that is written *)




(** *** More on the course of an invocation *)

(** X17: an invocation whose URLs are filled in and whose header
    specifications parse always issues the download request first, a GET to
    the download URL without a body, and at most one request after it. *)
Theorem configured_invocation_downloads_first p itemIndex dh uh :
  isConfigured p dh uh ->
  exists rest,
    snd (invoke p itemIndex) = downloadOptions p dh :: rest /\
    (length rest <= 1)%nat /\
    req_method (downloadOptions p dh) = "GET" /\
    req_url (downloadOptions p dh) = downloadUrl p /\
    req_body (downloadOptions p dh) = None.
Proof.
  intros Hc. rewrite (invoke_configured _ _ _ _ Hc). unfold tryCatch.
  destruct (download_cases p dh) as
    [(e & Hreq) | [(resp & code & Hd & Hcode) | [(resp & data & Hd & Hcode & Hbody)
    | [(resp & Hd & Hcode & Hbuf & Hpipe) | (resp & Hd & Hcode & Hs)]]]].
  - rewrite (transfer_download_error _ _ _ _ _ Hreq), recover_spec.
    exists []. simpl. repeat split; lia.
  - rewrite (transfer_download_failed _ _ _ _ _ _ Hd Hcode).
    exists []. destruct (throwOnError p); rewrite ?recover_spec; simpl; repeat split; lia.
  - rewrite (transfer_buffered _ _ _ _ _ _ Hd Hcode Hbody), recover_spec.
    exists []. simpl. repeat split; lia.
  - rewrite (transfer_not_streamable _ _ _ _ _ Hd Hcode Hbuf Hpipe), recover_spec.
    exists []. simpl. repeat split; lia.
  - rewrite (transfer_streamed _ _ _ _ _ Hd Hcode Hs). cbv zeta.
    eexists [_].
    destruct (request _) as [uresp|e]; [destruct (failedStatus (statusCode uresp));
      [destruct (throwOnError p)|]|]; rewrite ?recover_spec; simpl; repeat split; lia.
Qed.

(** X18: the item of a success reports the status codes as the responses
    gave them: the fallback to 200 never replaces a status code that is
    there. *)
Theorem success_reports_the_given_statuses p itemIndex dh uh dresp uresp c c' :
  isConfigured p dh uh ->
  downloads p dh dresp ->
  streamable (body dresp) ->
  uploads p uh dresp uresp ->
  statusCode dresp = Some c ->
  statusCode uresp = Some c' ->
  200 <= c < 300 ->
  200 <= c' < 300 ->
  exists r,
    fst (invoke p itemIndex) = Ok r /\
    success (json r) = Some true /\
    downloadStatus (json r) = Some c /\
    uploadStatus (json r) = Some c'.
Proof.
  intros Hc Hd Hs Hu Hcode Hcode' Hr Hr'.
  assert (passes (statusCode dresp)) as Hp by (rewrite Hcode; exact Hr).
  assert (passes (statusCode uresp)) as Hp' by (rewrite Hcode'; exact Hr').
  rewrite (invoke_success _ _ _ _ _ _ Hc Hd Hp Hs Hu Hp').
  eexists. split; [reflexivity|]. simpl. rewrite Hcode, Hcode'. simpl.
  destruct (c =? 0) eqn:E; [lia|]. destruct (c' =? 0) eqn:E'; [lia|].
  repeat split; reflexivity.
Qed.

(** X19: when the upload response of a successful transfer has no body,
    the item has no [uploadResponse]. *)
Theorem success_without_body_has_no_upload_response p itemIndex dh uh dresp uresp :
  isConfigured p dh uh ->
  downloads p dh dresp ->
  passes (statusCode dresp) ->
  streamable (body dresp) ->
  uploads p uh dresp uresp ->
  passes (statusCode uresp) ->
  body uresp = JsUndefined ->
  exists r,
    fst (invoke p itemIndex) = Ok r /\
    success (json r) = Some true /\
    uploadResponse (json r) = None.
Proof.
  intros Hc Hd Hp Hs Hu Hp' Hbody.
  rewrite (invoke_success _ _ _ _ _ _ Hc Hd Hp Hs Hu Hp').
  eexists. split; [reflexivity|]. simpl. rewrite Hbody. split; reflexivity.
Qed.

(** *** The check of the URLs *)

Lemma isEmpty_trimEnd s : isEmpty (trimEnd s) = allWhiteSpace s.
Proof.
  induction s as [|c s IH]; simpl; [reflexivity|].
  rewrite <- IH. destruct (isWhiteSpace c && isEmpty (trimEnd s)) eqn:E; simpl.
  - reflexivity.
  - reflexivity.
Qed.

Lemma allWhiteSpace_trimStart s : allWhiteSpace (trimStart s) = allWhiteSpace s.
Proof.
  induction s as [|c s IH]; simpl; [reflexivity|].
  destruct (isWhiteSpace c) eqn:E; simpl; [exact IH | rewrite E; reflexivity].
Qed.

(** X20: the check [!url || url.trim() === ''] rejects exactly the URLs
    that hold nothing but white space, the empty URL among them: a URL with
    one other character passes, wherever the white space around it is. *)
Theorem blank_iff_all_white_space (url : string) :
  blank url = allWhiteSpace url.
Proof.
  unfold blank, trim. rewrite isEmpty_trimEnd, allWhiteSpace_trimStart.
  destruct url; reflexivity.
Qed.

End Properties.






(** ** The properties at work on concrete invocations *)

Lemma configured_sample dUrl uUrl c uh throws :
  blank dUrl = false -> blank uUrl = false ->
  configured Sample.parseHeaders (Sample.params dUrl uUrl c uh throws) ∅ uh.
Proof. intros Hd Hu. repeat split; assumption. Qed.

Lemma no_header_empty name : ~ hasHeader ∅ name.
Proof. intros (k & [v Hv] & _). rewrite lookup_empty in Hv. discriminate. Qed.

(** A numeric length of 1.5 and a digit run beyond the exact range are sent
    as [String] prints the number, whatever [String] is. *)
Lemma length_is_sent_as_printed (String_number : spec_float -> string) c n :
  truthy_length c = true ->
  positiveLength c = Some n ->
  exists upload,
    snd (run String_number Sample.parseHeaders Sample.extractBearerToken Sample.JSON_parse
           (Sample.transport (Ok Sample.streamed) (Ok Sample.accepted))
           (Sample.params "https://a/f" "https://b/u" c ∅ true) 0) =
      [Sample.plainDownload; upload] /\
    req_headers upload !! "Content-Length" = Some (String_number n).
Proof.
  intros Ht Hn.
  pose proof (invoke_streamed String_number Sample.parseHeaders Sample.extractBearerToken
                Sample.JSON_parse
                (Sample.transport (Ok Sample.streamed) (Ok Sample.accepted))
                (Sample.params "https://a/f" "https://b/u" c ∅ true) 0 ∅ ∅ Sample.streamed
                (configured_sample "https://a/f" "https://b/u" c ∅ true eq_refl eq_refl)
                eq_refl ltac:(simpl; lia) (ex_intro _ 1%N eq_refl)) as Hlog.
  eexists. split; [exact Hlog|]. simpl.
  rewrite uploadHeadersAfter_length. unfold chosenLength. simpl.
  rewrite Ht, Hn. reflexivity.
Qed.

Example fractional_length_is_sent (String_number : spec_float -> string) :
  exists upload,
    snd (run String_number Sample.parseHeaders Sample.extractBearerToken Sample.JSON_parse
           (Sample.transport (Ok Sample.streamed) (Ok Sample.accepted))
           (Sample.params "https://a/f" "https://b/u"
              (CLNumber (S754_finite false 3 (-1))) ∅ true) 0) =
      [Sample.plainDownload; upload] /\
    req_headers upload !! "Content-Length" =
      Some (String_number (S754_finite false 3 (-1))).
Proof. apply length_is_sent_as_printed; reflexivity. Qed.

Example long_length_is_rounded (String_number : spec_float -> string) :
  parseInt10 "99999999999999999999999" = toNumber false (10 ^ 23) /\
  exists upload,
    snd (run String_number Sample.parseHeaders Sample.extractBearerToken Sample.JSON_parse
           (Sample.transport (Ok Sample.streamed) (Ok Sample.accepted))
           (Sample.params "https://a/f" "https://b/u"
              (CLString "99999999999999999999999") ∅ true) 0) =
      [Sample.plainDownload; upload] /\
    req_headers upload !! "Content-Length" =
      Some (String_number (toNumber false (10 ^ 23))).
Proof. split; [reflexivity | apply length_is_sent_as_printed; reflexivity]. Qed.

(** A blank download URL, with [throwOnError] off: the error is raised. *)
Lemma C9_witness :
  (trim (downloadUrl (Sample.params "   " "https://b/u" (CLString "") ∅ false)) = "" \/
   trim (uploadUrl (Sample.params "   " "https://b/u" (CLString "") ∅ false)) = "") /\
  exists message,
    Sample.run (Ok Sample.streamed) (Ok Sample.accepted)
      (Sample.params "   " "https://b/u" (CLString "") ∅ false) = (Throw message, []) /\
    (message = "Download URL is required and cannot be empty" \/
     message = "Upload URL is required and cannot be empty").
Proof.
  split; [left; reflexivity|].
  apply (C9_blank_url_always_raises Sample.String_number Sample.parseHeaders Sample.extractBearerToken
           Sample.JSON_parse (Sample.transport (Ok Sample.streamed) (Ok Sample.accepted))
           (Sample.params "   " "https://b/u" (CLString "") ∅ false) 0).
  left; reflexivity.
Defined.

(** A download answered with 404, with [throwOnError] off. *)
Lemma C8_witness :
  exists message,
    Sample.run (Ok Sample.notFound) (Ok Sample.accepted) (Sample.plain false) =
      (Ok {| json := {| success := None; error := Some message;
                        downloadStatus := Some 404; uploadStatus := None;
                        uploadResponse := None;
                        json_downloadUrl := Some "https://a/f"; json_uploadUrl := None |};
             pairedItem := 0 |},
       [Sample.plainDownload]) /\
    includes "404" message = true /\
    includes "https://a/f" message = true.
Proof.
  exact (C8_download_404_is_returned Sample.String_number Sample.parseHeaders Sample.extractBearerToken
           Sample.JSON_parse (Sample.transport (Ok Sample.notFound) (Ok Sample.accepted))
           (Sample.plain false) 0 ∅ ∅ Sample.notFound
           (configured_sample "https://a/f" "https://b/u" (CLString "") ∅ false
              eq_refl eq_refl)
           eq_refl eq_refl eq_refl).
Defined.

(** Neither response has a status code: the upload is issued and the item
    reports 200 twice. *)
Lemma C10_witness :
  snd (Sample.run (Ok (Sample.statusless (JsReadable 1)))
         (Ok (Sample.statusless JsUndefined)) (Sample.plain true)) =
    [Sample.plainDownload;
     Sample.uploadOf "https://b/u" {[ "Content-Type" := "application/octet-stream" ]}] /\
  exists r,
    fst (Sample.run (Ok (Sample.statusless (JsReadable 1)))
           (Ok (Sample.statusless JsUndefined)) (Sample.plain true)) = Ok r /\
    success (json r) = Some true /\
    downloadStatus (json r) = Some 200 /\
    uploadStatus (json r) = Some 200.
Proof.
  destruct (C10_undefined_status_is_not_checked Sample.String_number Sample.parseHeaders
              Sample.extractBearerToken Sample.JSON_parse
              (Sample.transport (Ok (Sample.statusless (JsReadable 1)))
                 (Ok (Sample.statusless JsUndefined)))
              (Sample.plain true) 0 ∅ ∅ (Sample.statusless (JsReadable 1))
              (configured_sample "https://a/f" "https://b/u" (CLString "") ∅ true
                 eq_refl eq_refl)
              eq_refl (ex_intro _ 1%N eq_refl)) as (Hlog & Hdown & Hup).
  split; [exact (Hlog eq_refl)|].
  destruct (Hdown (Sample.statusless JsUndefined) eq_refl eq_refl I) as (r & Hr & Hs & Hd).
  destruct (Hup (Sample.statusless JsUndefined) eq_refl I eq_refl) as (r' & Hr' & _ & Hu).
  exists r. repeat split; try assumption.
  unfold Sample.run in *. rewrite Hr in Hr'. injection Hr' as <-. exact Hu.
Defined.

(** An upload answered with the JSON text [true]: the item holds the
    decoded boolean. *)
Lemma C7_witness :
  exists r,
    fst (Sample.run (Ok Sample.streamed) (Ok Sample.accepted) (Sample.plain true)) = Ok r /\
    success (json r) = Some true /\
    uploadResponse (json r) = Some (JsBoolean true).
Proof.
  destruct (C7_upload_response_is_decoded_or_raw Sample.String_number Sample.parseHeaders
              Sample.extractBearerToken Sample.JSON_parse
              (Sample.transport (Ok Sample.streamed) (Ok Sample.accepted))
              (Sample.plain true) 0 ∅ ∅ Sample.streamed Sample.accepted
              (configured_sample "https://a/f" "https://b/u" (CLString "") ∅ true
                 eq_refl eq_refl)
              eq_refl ltac:(simpl; lia) (ex_intro _ 1%N eq_refl) eq_refl
              ltac:(simpl; lia) ltac:(discriminate))
    as (r & Hr & Hs & Hjson & _).
  exists r. repeat split; try assumption.
  exact (Hjson "true" (JsBoolean true) eq_refl eq_refl).
Defined.

(** A token in the upload URL and no Authorization among the upload headers. *)
Lemma C6_witness :
  exists upload,
    snd (Sample.run (Ok Sample.streamed) (Ok Sample.accepted)
           (Sample.params "https://a/f" "https://b/u?bearer=T" (CLString "") ∅ true)) =
      [Sample.plainDownload; upload] /\
    req_url upload = "https://b/u?bearer=T" /\
    req_headers upload !! "Authorization" = Some "Bearer T".
Proof.
  exact (C6_bearer_is_mirrored_and_url_kept Sample.String_number Sample.parseHeaders
           Sample.extractBearerToken Sample.JSON_parse
           (Sample.transport (Ok Sample.streamed) (Ok Sample.accepted))
           (Sample.params "https://a/f" "https://b/u?bearer=T" (CLString "") ∅ true)
           0 ∅ ∅ Sample.streamed "T"
           (configured_sample "https://a/f" "https://b/u?bearer=T" (CLString "") ∅ true
              eq_refl eq_refl)
           eq_refl ltac:(simpl; lia) (ex_intro _ 1%N eq_refl) eq_refl
           ltac:(discriminate) (no_header_empty "Authorization")).
Defined.

(** No explicit length and an advertised length of 2048 bytes. *)
Lemma C2_witness :
  exists upload,
    snd (Sample.run (Ok (Sample.advertising "2048")) (Ok Sample.accepted)
           (Sample.plain true)) = [Sample.plainDownload; upload] /\
    req_headers upload !! "Content-Length" = Some "2048".
Proof.
  exact (C2_content_length_is_chosen_by_presence Sample.String_number Sample.parseHeaders
           Sample.extractBearerToken Sample.JSON_parse
           (Sample.transport (Ok (Sample.advertising "2048")) (Ok Sample.accepted))
           (Sample.plain true) 0 ∅ ∅ (Sample.advertising "2048")
           (configured_sample "https://a/f" "https://b/u" (CLString "") ∅ true
              eq_refl eq_refl)
           eq_refl ltac:(simpl; lia) (ex_intro _ 1%N eq_refl)).
Defined.

(** A buffered download answered with 200, with [throwOnError] off. *)
Lemma C1_witness :
  exists message,
    message = enhancedMessage "https://a/f" "https://b/u"
                (bufferedMessage "https://a/f" Sample.sevenBytes) /\
    includes "7" message = true /\
    Sample.run (Ok (Sample.buffered (Some 200))) (Ok Sample.accepted) (Sample.plain false) =
      (Ok {| json := {| success := Some false; error := Some message;
                        downloadStatus := None; uploadStatus := None;
                        uploadResponse := None;
                        json_downloadUrl := Some "https://a/f";
                        json_uploadUrl := Some "https://b/u" |};
             pairedItem := 0 |},
       [Sample.plainDownload]).
Proof.
  exact (C1_buffered_body_fails_when_status_passes Sample.String_number Sample.parseHeaders
           Sample.extractBearerToken Sample.JSON_parse
           (Sample.transport (Ok (Sample.buffered (Some 200))) (Ok Sample.accepted))
           (Sample.plain false) 0 ∅ ∅ (Sample.buffered (Some 200)) Sample.sevenBytes
           (configured_sample "https://a/f" "https://b/u" (CLString "") ∅ false
              eq_refl eq_refl)
           eq_refl ltac:(simpl; lia) eq_refl).
Defined.

(** An upload answered with 500, with [throwOnError] on. *)
Lemma C4_witness :
  fst (Sample.run (Ok Sample.streamed) (Ok (Sample.response (Some 500) ∅ JsUndefined))
         (Sample.plain true)) =
    Throw ("File transfer failed: " +:+ uploadFailedMessage 500 "https://b/u" "POST" +:+
           ". Download URL: https://a/f, Upload URL: https://b/u").
Proof.
  exact (proj1
    (C4_failure_is_raised_with_enhanced_message Sample.String_number Sample.parseHeaders
       Sample.extractBearerToken Sample.JSON_parse
       (Sample.transport (Ok Sample.streamed) (Ok (Sample.response (Some 500) ∅ JsUndefined)))
       (Sample.plain true) 0 ∅ ∅ (uploadFailedMessage 500 "https://b/u" "POST")
       (configured_sample "https://a/f" "https://b/u" (CLString "") ∅ true eq_refl eq_refl)
       eq_refl
       (UploadFailed Sample.String_number Sample.extractBearerToken
          (Sample.transport (Ok Sample.streamed) (Ok (Sample.response (Some 500) ∅ JsUndefined)))
          (Sample.plain true) ∅ ∅ Sample.streamed (Sample.response (Some 500) ∅ JsUndefined)
          500 eq_refl eq_refl (ex_intro _ 1%N eq_refl) eq_refl eq_refl))).
Defined.

(** ** Where the code departs from the wording of the specification *)

(** C1 as stated fails: a buffered body of 7 bytes that comes with status
    404 ends in the download status error; no message of the outcome embeds
    the byte length. *)
Lemma C1_counterexample :
  ~ exists message,
      failsWith (fst (Sample.run (Ok (Sample.buffered (Some 404))) (Ok Sample.accepted)
                        (Sample.plain true))) message /\
      includes (string_of_Z (Z.of_nat (length Sample.sevenBytes))) message = true.
Proof.
  intros (message & Hfails & Hincludes).
  assert (fst (Sample.run (Ok (Sample.buffered (Some 404))) (Ok Sample.accepted)
                 (Sample.plain true)) =
          Throw ("File transfer failed: " +:+ downloadFailedMessage 404 "https://a/f" +:+
                 ". Download URL: https://a/f, Upload URL: https://b/u")) as Hrun
    by (vm_compute; reflexivity).
  rewrite Hrun in Hfails.
  destruct Hfails as [Hthrown | (r & Hreturned & _)]; [|discriminate].
  injection Hthrown as <-. vm_compute in Hincludes. discriminate.
Qed.

(** C2 as stated fails: with the explicit input ["abc"] and an advertised
    length of 100 the tiers of the specification give 100, while the upload
    request is issued without any Content-Length. *)
Lemma C2_counterexample :
  lengthByTiers (CLString "abc") (Some "100") = Some (toNumber false 100) /\
  Sample.String_number (toNumber false 100) = "100" /\
  snd (Sample.run (Ok (Sample.advertising "100")) (Ok Sample.accepted)
         (Sample.params "https://a/f" "https://b/u" (CLString "abc") ∅ true)) =
    [Sample.plainDownload;
     Sample.uploadOf "https://b/u" {[ "Content-Type" := "application/octet-stream" ]}] /\
  ({[ "Content-Type" := "application/octet-stream" ]} : Headers) !! "Content-Length" = None.
Proof.
  split; [reflexivity|]. split; [reflexivity|].
  split; [vm_compute; reflexivity | reflexivity].
Qed.

(** C4 as stated fails: a download refused with 404 is a terminal failure
    whose diagnostic string is not the message that is raised. *)
Lemma C4_counterexample :
  TerminalFailure Sample.String_number Sample.extractBearerToken
    (Sample.transport (Ok Sample.notFound) (Ok Sample.accepted))
    (Sample.plain true) ∅ ∅ (downloadFailedMessage 404 "https://a/f") /\
  fst (Sample.run (Ok Sample.notFound) (Ok Sample.accepted) (Sample.plain true)) <>
    Throw (downloadFailedMessage 404 "https://a/f").
Proof.
  split.
  - apply (DownloadFailed Sample.String_number Sample.extractBearerToken
             (Sample.transport (Ok Sample.notFound) (Ok Sample.accepted))
             (Sample.plain true) ∅ ∅ Sample.notFound 404); reflexivity.
  - vm_compute. discriminate.
Qed.

(** C5 as stated fails: the user header [accept] does not replace the
    default [Accept]; both are sent. *)
Lemma C5_counterexample :
  ~ mergedIgnoringCase {[ "Accept" := "*/*" ]} {[ "accept" := "text/html" ]}
      (finalDownloadHeaders {[ "accept" := "text/html" ]}).
Proof.
  intros H. destruct (H "Accept" "*/*") as [Hkept _].
  destruct Hkept as [Huser | (_ & _ & Hno)].
  - reflexivity.
  - vm_compute in Huser. discriminate.
  - apply Hno. exists "accept". split; [eexists|]; reflexivity.
Qed.

(** C3 at work: the upload headers hold [AUTHORIZATION], an Authorization
    header in capitals, and the upload URL carries the token [T]; the upload
    request is issued with the header the user gave and with a second one,
    [Authorization: Bearer T]. *)
Lemma C3_witness :
  hasHeader {[ "AUTHORIZATION" := "Basic dXNlcjpwYXNz" ]} "Authorization" /\
  exists upload,
    snd (Sample.run (Ok Sample.streamed) (Ok Sample.accepted)
           (Sample.params "https://a/f" "https://b/u?bearer=T" (CLString "")
              {[ "AUTHORIZATION" := "Basic dXNlcjpwYXNz" ]} true)) =
      [Sample.plainDownload; upload] /\
    req_headers upload !! "Authorization" = Some "Bearer T" /\
    req_headers upload !! "AUTHORIZATION" = Some "Basic dXNlcjpwYXNz".
Proof.
  split.
  - exists "AUTHORIZATION". split; [eexists|]; reflexivity.
  - destruct (C3_bearer_added_beside_other_spelling Sample.String_number Sample.parseHeaders
                Sample.extractBearerToken Sample.JSON_parse
                (Sample.transport (Ok Sample.streamed) (Ok Sample.accepted))
                (Sample.params "https://a/f" "https://b/u?bearer=T" (CLString "")
                   {[ "AUTHORIZATION" := "Basic dXNlcjpwYXNz" ]} true)
                0 ∅ {[ "AUTHORIZATION" := "Basic dXNlcjpwYXNz" ]} Sample.streamed "T"
                (configured_sample "https://a/f" "https://b/u?bearer=T" (CLString "")
                   {[ "AUTHORIZATION" := "Basic dXNlcjpwYXNz" ]} true eq_refl eq_refl)
                eq_refl ltac:(simpl; lia) (ex_intro _ 1%N eq_refl) eq_refl
                ltac:(discriminate) eq_refl eq_refl)
      as (upload & Hlog & Hbearer & Hkept).
    exists upload. split; [exact Hlog|]. split; [exact Hbearer|].
    apply Hkept; [discriminate | discriminate | reflexivity].
Defined.

(** ** The further properties at work on concrete invocations *)

(** A download answered with 404, with [throwOnError] on. *)
Lemma download_status_failure_outcome_witness :
  includes "404" (downloadFailedMessage 404 "https://a/f") = true /\
  includes "https://a/f" (downloadFailedMessage 404 "https://a/f") = true /\
  Sample.run (Ok Sample.notFound) (Ok Sample.accepted) (Sample.plain true) =
    (Throw (enhancedMessage "https://a/f" "https://b/u"
              (downloadFailedMessage 404 "https://a/f")),
     [Sample.plainDownload]).
Proof.
  exact (download_status_failure_outcome Sample.String_number Sample.parseHeaders Sample.extractBearerToken
           Sample.JSON_parse (Sample.transport (Ok Sample.notFound) (Ok Sample.accepted))
           (Sample.plain true) 0 ∅ ∅ Sample.notFound 404
           (configured_sample "https://a/f" "https://b/u" (CLString "") ∅ true
              eq_refl eq_refl)
           eq_refl eq_refl ltac:(right; lia)).
Defined.

(** An upload answered with 500, with [throwOnError] off. *)
Lemma upload_status_failure_outcome_witness :
  includes "500" (uploadFailedMessage 500 "https://b/u" "POST") = true /\
  includes "https://b/u" (uploadFailedMessage 500 "https://b/u" "POST") = true /\
  includes "POST" (uploadFailedMessage 500 "https://b/u" "POST") = true /\
  Sample.run (Ok Sample.streamed) (Ok Sample.refused) (Sample.plain false) =
    (Ok {| json := {| success := None;
                      error := Some (uploadFailedMessage 500 "https://b/u" "POST");
                      downloadStatus := Some 200; uploadStatus := Some 500;
                      uploadResponse := None;
                      json_downloadUrl := Some "https://a/f";
                      json_uploadUrl := Some "https://b/u" |};
           pairedItem := 0 |},
     [Sample.plainDownload;
      Sample.uploadOf "https://b/u" {[ "Content-Type" := "application/octet-stream" ]}]).
Proof.
  exact (upload_status_failure_outcome Sample.String_number Sample.parseHeaders Sample.extractBearerToken
           Sample.JSON_parse (Sample.transport (Ok Sample.streamed) (Ok Sample.refused))
           (Sample.plain false) 0 ∅ ∅ Sample.streamed Sample.refused 500
           (configured_sample "https://a/f" "https://b/u" (CLString "") ∅ false
              eq_refl eq_refl)
           eq_refl ltac:(simpl; lia) (ex_intro _ 1%N eq_refl) eq_refl eq_refl
           ltac:(right; lia)).
Defined.

(** A download whose body arrived as text, with [throwOnError] off. *)
Lemma not_streamable_body_outcome_witness :
  exists message,
    message = enhancedMessage "https://a/f" "https://b/u"
                (notStreamableMessage "https://a/f" (JsString "<html>moved</html>")) /\
    includes "string" message = true /\
    includes "String" message = true /\
    Sample.run (Ok Sample.parsed) (Ok Sample.accepted) (Sample.plain false) =
      (Ok {| json := {| success := Some false; error := Some message;
                        downloadStatus := None; uploadStatus := None;
                        uploadResponse := None;
                        json_downloadUrl := Some "https://a/f";
                        json_uploadUrl := Some "https://b/u" |};
             pairedItem := 0 |},
       [Sample.plainDownload]).
Proof.
  exact (not_streamable_body_outcome Sample.String_number Sample.parseHeaders Sample.extractBearerToken
           Sample.JSON_parse (Sample.transport (Ok Sample.parsed) (Ok Sample.accepted))
           (Sample.plain false) 0 ∅ ∅ Sample.parsed
           (configured_sample "https://a/f" "https://b/u" (CLString "") ∅ false
              eq_refl eq_refl)
           eq_refl ltac:(simpl; lia) eq_refl eq_refl).
Defined.

(** A download that the transport rejects, with [throwOnError] off. *)
Lemma download_transport_error_outcome_witness :
  Sample.run (Throw "connect ECONNREFUSED 10.0.0.1:443") (Ok Sample.accepted)
    (Sample.plain false) =
    (Ok {| json := {| success := Some false;
                      error := Some (enhancedMessage "https://a/f" "https://b/u"
                                       "connect ECONNREFUSED 10.0.0.1:443");
                      downloadStatus := None; uploadStatus := None;
                      uploadResponse := None;
                      json_downloadUrl := Some "https://a/f";
                      json_uploadUrl := Some "https://b/u" |};
           pairedItem := 0 |},
     [Sample.plainDownload]).
Proof.
  exact (download_transport_error_outcome Sample.String_number Sample.parseHeaders Sample.extractBearerToken
           Sample.JSON_parse
           (Sample.transport (Throw "connect ECONNREFUSED 10.0.0.1:443")
              (Ok Sample.accepted))
           (Sample.plain false) 0 ∅ ∅ "connect ECONNREFUSED 10.0.0.1:443"
           (configured_sample "https://a/f" "https://b/u" (CLString "") ∅ false
              eq_refl eq_refl)
           eq_refl).
Defined.

(** An upload that the transport rejects, with [throwOnError] on. *)
Lemma upload_transport_error_outcome_witness :
  Sample.run (Ok Sample.streamed) (Throw "socket hang up") (Sample.plain true) =
    (Throw (enhancedMessage "https://a/f" "https://b/u" "socket hang up"),
     [Sample.plainDownload;
      Sample.uploadOf "https://b/u" {[ "Content-Type" := "application/octet-stream" ]}]).
Proof.
  exact (upload_transport_error_outcome Sample.String_number Sample.parseHeaders Sample.extractBearerToken
           Sample.JSON_parse (Sample.transport (Ok Sample.streamed) (Throw "socket hang up"))
           (Sample.plain true) 0 ∅ ∅ Sample.streamed "socket hang up"
           (configured_sample "https://a/f" "https://b/u" (CLString "") ∅ true
              eq_refl eq_refl)
           eq_refl ltac:(simpl; lia) (ex_intro _ 1%N eq_refl) eq_refl).
Defined.

(** Download headers that do not parse, with [throwOnError] off. *)
Lemma header_parse_error_is_raised_witness :
  Sample.run (Ok Sample.streamed) (Ok Sample.accepted) (Sample.malformed false) =
    (Throw "Invalid JSON in headers", []).
Proof.
  exact (header_parse_error_is_raised Sample.String_number Sample.parseHeaders Sample.extractBearerToken
           Sample.JSON_parse (Sample.transport (Ok Sample.streamed) (Ok Sample.accepted))
           (Sample.malformed false) 0 "Invalid JSON in headers"
           eq_refl eq_refl (or_introl eq_refl)).
Defined.

(** A transfer that succeeds with 200 and 201. *)
Lemma success_reports_passing_statuses_witness :
  fst (Sample.run (Ok Sample.streamed) (Ok Sample.accepted) (Sample.plain true)) =
    Ok Sample.successItem /\
  (exists c, downloadStatus (json Sample.successItem) = Some c /\ 200 <= c < 300) /\
  (exists c, uploadStatus (json Sample.successItem) = Some c /\ 200 <= c < 300) /\
  error (json Sample.successItem) = None /\
  length (snd (Sample.run (Ok Sample.streamed) (Ok Sample.accepted) (Sample.plain true))) =
    2%nat.
Proof.
  split; [reflexivity|].
  exact (success_reports_passing_statuses Sample.String_number Sample.parseHeaders Sample.extractBearerToken
           Sample.JSON_parse (Sample.transport (Ok Sample.streamed) (Ok Sample.accepted))
           (Sample.plain true) 0 Sample.successItem eq_refl eq_refl).
Defined.

(** A buffered download, with [throwOnError] off: an item is returned. *)
Lemma returning_policy_never_raises_witness :
  exists r,
    fst (Sample.run (Ok (Sample.buffered (Some 200))) (Ok Sample.accepted)
           (Sample.plain false)) = Ok r.
Proof.
  exact (returning_policy_never_raises Sample.String_number Sample.parseHeaders Sample.extractBearerToken
           Sample.JSON_parse
           (Sample.transport (Ok (Sample.buffered (Some 200))) (Ok Sample.accepted))
           (Sample.plain false) 0 ∅ ∅
           (configured_sample "https://a/f" "https://b/u" (CLString "") ∅ false
              eq_refl eq_refl)
           eq_refl).
Defined.

(** A transfer that succeeds, with [throwOnError] on. *)
Lemma raising_policy_returns_only_success_witness :
  fst (Sample.run (Ok Sample.streamed) (Ok Sample.accepted) (Sample.plain true)) =
    Ok Sample.successItem /\
  success (json Sample.successItem) = Some true /\
  error (json Sample.successItem) = None.
Proof.
  split; [reflexivity|].
  exact (raising_policy_returns_only_success Sample.String_number Sample.parseHeaders Sample.extractBearerToken
           Sample.JSON_parse (Sample.transport (Ok Sample.streamed) (Ok Sample.accepted))
           (Sample.plain true) 0 Sample.successItem eq_refl eq_refl).
Defined.

(** The item of a download answered with 404, with [throwOnError] off. *)
Lemma returned_item_is_success_or_error_witness :
  fst (Sample.run (Ok Sample.notFound) (Ok Sample.accepted) (Sample.plain false)) =
    Ok Sample.notFoundItem /\
  pairedItem Sample.notFoundItem = 0 /\
  (success (json Sample.notFoundItem) = Some true /\
   error (json Sample.notFoundItem) = None \/
   success (json Sample.notFoundItem) <> Some true /\
   exists message, error (json Sample.notFoundItem) = Some message).
Proof.
  split; [reflexivity|].
  exact (returned_item_is_success_or_error Sample.String_number Sample.parseHeaders Sample.extractBearerToken
           Sample.JSON_parse (Sample.transport (Ok Sample.notFound) (Ok Sample.accepted))
           (Sample.plain false) 0 Sample.notFoundItem eq_refl).
Defined.

(** An upload with a Content-Type and a custom header of the user. *)
Lemma upload_request_carries_stream_and_headers_witness :
  exists upload,
    snd (Sample.run (Ok Sample.streamed) (Ok Sample.accepted)
           (Sample.params "https://a/f" "https://b/u" (CLString "")
              {[ "Content-Type" := "application/pdf"; "X-Trace" := "abc" ]} true)) =
      [Sample.plainDownload; upload] /\
    req_method upload = "POST" /\
    req_body upload = Some (JsReadable 1) /\
    req_headers upload !! "Content-Type" = Some "application/pdf" /\
    req_headers upload !! "X-Trace" = Some "abc".
Proof.
  destruct (upload_request_carries_stream_and_headers Sample.String_number Sample.parseHeaders
              Sample.extractBearerToken Sample.JSON_parse
              (Sample.transport (Ok Sample.streamed) (Ok Sample.accepted))
              (Sample.params "https://a/f" "https://b/u" (CLString "")
                 {[ "Content-Type" := "application/pdf"; "X-Trace" := "abc" ]} true)
              0 ∅ {[ "Content-Type" := "application/pdf"; "X-Trace" := "abc" ]}
              Sample.streamed
              (configured_sample "https://a/f" "https://b/u" (CLString "")
                 {[ "Content-Type" := "application/pdf"; "X-Trace" := "abc" ]} true
                 eq_refl eq_refl)
              eq_refl ltac:(simpl; lia) (ex_intro _ 1%N eq_refl))
    as (upload & Hlog & Hmethod & Hbody & Htype & Hkept).
  exists upload. repeat split; try assumption.
  apply Hkept; [discriminate | discriminate | reflexivity].
Defined.

(** A token in the upload URL and an Authorization header of the user. *)
Lemma authorization_is_left_alone_witness :
  exists upload,
    snd (Sample.run (Ok Sample.streamed) (Ok Sample.accepted)
           (Sample.params "https://a/f" "https://b/u?bearer=T" (CLString "")
              {[ "Authorization" := "Basic dXNlcjpwYXNz" ]} true)) =
      [Sample.plainDownload; upload] /\
    req_headers upload !! "Authorization" = Some "Basic dXNlcjpwYXNz" /\
    req_headers upload !! "authorization" = None.
Proof.
  exact (authorization_is_left_alone Sample.String_number Sample.parseHeaders
           Sample.extractBearerToken Sample.JSON_parse
           (Sample.transport (Ok Sample.streamed) (Ok Sample.accepted))
           (Sample.params "https://a/f" "https://b/u?bearer=T" (CLString "")
              {[ "Authorization" := "Basic dXNlcjpwYXNz" ]} true)
           0 ∅ {[ "Authorization" := "Basic dXNlcjpwYXNz" ]} Sample.streamed
           (configured_sample "https://a/f" "https://b/u?bearer=T" (CLString "")
              {[ "Authorization" := "Basic dXNlcjpwYXNz" ]} true eq_refl eq_refl)
           eq_refl ltac:(simpl; lia) (ex_intro _ 1%N eq_refl)
           (or_intror (or_intror (or_introl eq_refl)))).
Defined.


(** A buffered download: the download request is the only one. *)
Lemma configured_invocation_downloads_first_witness :
  exists rest,
    snd (Sample.run (Ok (Sample.buffered (Some 200))) (Ok Sample.accepted)
           (Sample.plain true)) = Sample.plainDownload :: rest /\
    (length rest <= 1)%nat /\
    req_method Sample.plainDownload = "GET" /\
    req_url Sample.plainDownload = "https://a/f" /\
    req_body Sample.plainDownload = None.
Proof.
  exact (configured_invocation_downloads_first Sample.String_number Sample.parseHeaders
           Sample.extractBearerToken Sample.JSON_parse
           (Sample.transport (Ok (Sample.buffered (Some 200))) (Ok Sample.accepted))
           (Sample.plain true) 0 ∅ ∅
           (configured_sample "https://a/f" "https://b/u" (CLString "") ∅ true
              eq_refl eq_refl)).
Defined.

(** A download answered with 206 and an upload answered with 201. *)
Lemma success_reports_the_given_statuses_witness :
  exists r,
    fst (Sample.run (Ok (Sample.response (Some 206) ∅ (JsReadable 1)))
           (Ok Sample.accepted) (Sample.plain true)) = Ok r /\
    success (json r) = Some true /\
    downloadStatus (json r) = Some 206 /\
    uploadStatus (json r) = Some 201.
Proof.
  exact (success_reports_the_given_statuses Sample.String_number Sample.parseHeaders
           Sample.extractBearerToken Sample.JSON_parse
           (Sample.transport (Ok (Sample.response (Some 206) ∅ (JsReadable 1)))
              (Ok Sample.accepted))
           (Sample.plain true) 0 ∅ ∅ (Sample.response (Some 206) ∅ (JsReadable 1))
           Sample.accepted 206 201
           (configured_sample "https://a/f" "https://b/u" (CLString "") ∅ true
              eq_refl eq_refl)
           eq_refl (ex_intro _ 1%N eq_refl) eq_refl eq_refl eq_refl
           ltac:(lia) ltac:(lia)).
Defined.

(** An upload answered with 204 and no body. *)
Lemma success_without_body_has_no_upload_response_witness :
  exists r,
    fst (Sample.run (Ok Sample.streamed) (Ok (Sample.response (Some 204) ∅ JsUndefined))
           (Sample.plain true)) = Ok r /\
    success (json r) = Some true /\
    uploadResponse (json r) = None.
Proof.
  exact (success_without_body_has_no_upload_response Sample.String_number Sample.parseHeaders
           Sample.extractBearerToken Sample.JSON_parse
           (Sample.transport (Ok Sample.streamed)
              (Ok (Sample.response (Some 204) ∅ JsUndefined)))
           (Sample.plain true) 0 ∅ ∅ Sample.streamed
           (Sample.response (Some 204) ∅ JsUndefined)
           (configured_sample "https://a/f" "https://b/u" (CLString "") ∅ true
              eq_refl eq_refl)
           eq_refl ltac:(simpl; lia) (ex_intro _ 1%N eq_refl) eq_refl
           ltac:(simpl; lia) eq_refl).
Defined.

